(** * GroomingAlertSystem: the controller's Settings Store and Command Client

    A shallow embedding of [src/main.js] (the Electron main process) and of the
    settings dialog of the renderer, with the properties of the settings
    store ([loadSettings], [saveSettings], the [get-settings] and
    [save-settings] handlers) and of the command client (the
    [play-announcement] handler).

    Modelling choices, all visible in the definitions below:
    - JavaScript values are the JSON data model plus [undefined]; a number is
      written as an integer ([Z]) and stands for the double nearest to it,
      numbers with a fraction are not modelled;
      an object is a finite map from property names to values (the order of
      the properties, which only shapes the bytes [JSON.stringify] prints, is
      not modelled);
    - the main process is a state-and-exception monad over a [World]: the
      module variable [settings], the disk, the console, the network and the
      traces of the calls made to [fs] and to [axios.post];
    - what the platform provides and the repository does not define
      ([JSON.parse], [JSON.stringify], the user-data path, the answers of the
      network) is a parameter of the model. *)

From stdpp Require Import gmap strings list fin_maps pretty.

Set Warnings "-register-all".
Open Scope Z_scope.

(** ** JavaScript values *)

Module Js.

Inductive JsValue : Type :=
  | JUndefined
  | JNull
  | JBool (b : bool)
  | JNum (n : Z)
  | JStr (s : string)
  | JArr (items : list JsValue)
  | JObj (props : gmap string JsValue).

(** A thrown value: an [Error] with its [name] and [message]. axios attaches
    [response] to the error it rejects with when the server answered with a
    status outside 2xx, and leaves it unset when no answer arrived;
    [err_status] is that [response.status]. *)
Record JsError : Type := mkError {
  err_name : string;
  err_message : string;
  err_status : option Z
}.

(** The result of evaluating an expression: a value or a thrown error. *)
Inductive Result (A : Type) : Type :=
  | Ok (a : A)
  | Raise (e : JsError).
Arguments Ok {A} a.
Arguments Raise {A} e.

Definition and_then {A B : Type} (r : Result A) (k : A -> Result B) : Result B :=
  match r with
  | Ok a => k a
  | Raise e => Raise e
  end.

Definition TypeError (msg : string) : JsError := mkError "TypeError" msg None.

Fixpoint chars (s : string) : list JsValue :=
  match s with
  | EmptyString => []
  | String c rest => JStr (String c EmptyString) :: chars rest
  end.

Definition indexed (l : list JsValue) : gmap string JsValue :=
  list_to_map (imap (fun (i : nat) (x : JsValue) => (pretty i, x)) l).

(** The own enumerable properties of a value, which is what object spread
    copies: the properties of an object, the elements of an array and the
    characters of a string under their indices, nothing for the other
    primitives. *)
Definition own_props (v : JsValue) : gmap string JsValue :=
  match v with
  | JObj props => props
  | JArr items => indexed items
  | JStr s => indexed (chars s)
  | _ => ∅
  end.

(** [{ ...a, ...b }]: the properties of [a], overwritten by those of [b]. *)
Definition spread (a b : JsValue) : JsValue :=
  JObj (own_props b ∪ own_props a).

(** [v.key], for a key that no built-in prototype defines (the program reads
    [piAddress] and [piPort] only): the own property or [undefined]; reading
    a property of [null] or [undefined] throws. *)
Definition get_prop (v : JsValue) (key : string) : Result JsValue :=
  match v with
  | JUndefined =>
      Raise (TypeError ("Cannot read properties of undefined (reading '" +:+ key +:+ "')"))
  | JNull =>
      Raise (TypeError ("Cannot read properties of null (reading '" +:+ key +:+ "')"))
  | _ => Ok (default JUndefined (own_props v !! key))
  end.

(** [Number.MAX_SAFE_INTEGER]: up to it every integer is a double, and prints
    as its decimal digits. *)
Definition max_safe_integer : Z := 9007199254740991.

(** The double nearest to a natural number, ties to the even significand. *)
Definition nearest_double (a : Z) : Z :=
  if a <=? max_safe_integer then a
  else
    let e := Z.log2 a - 52 in
    let q := Z.shiftr a e in
    let r := a - Z.shiftl q e in
    let half := Z.shiftl 1 (e - 1) in
    Z.shiftl (if (half <? r) || ((r =? half) && Z.odd q) then q + 1 else q) e.

(** The decimal [v] reads back as the double [x]: it lies between the
    midpoints to the neighbours of [x], the midpoints included when the
    significand of [x] is even. *)
Definition reads_as (x v : Z) : bool :=
  let u := 2 ^ (Z.log2 x - 52) in
  let m := x / u in
  let below := if m =? 2 ^ 52 then u / 2 else u in
  if Z.even m then (2 * x - below <=? 2 * v) && (2 * v <=? 2 * x + u)
  else (2 * x - below <? 2 * v) && (2 * v <? 2 * x + u).

(** The decimal with the fewest significant digits that reads back as [x],
    the nearest one when two have as few. *)
Fixpoint shortest (fuel : nat) (k : Z) (x digits : Z) : Z :=
  match fuel with
  | O => x
  | S fuel' =>
      let t := 10 ^ (digits - k) in
      let s := x / t in
      let lo := s * t in
      let hi := lo + t in
      match reads_as x lo, reads_as x hi with
      | true, true =>
          if x - lo <? hi - x then lo
          else if hi - x <? x - lo then hi
          else if Z.even s then lo else hi
      | true, false => lo
      | false, true => hi
      | false, false => shortest fuel' (k + 1) x digits
      end
  end.

Fixpoint strip_zeros (s : string) : string :=
  match s with
  | EmptyString => EmptyString
  | String c rest =>
      match strip_zeros rest with
      | EmptyString => if Ascii.eqb c (Ascii.ascii_of_nat 48) then EmptyString
                       else String c EmptyString
      | rest' => String c rest'
      end
  end.

(** [Number.prototype.toString] on the number written [n]: the digits of a
    safe integer; beyond, the shortest digits that read back as the double,
    in exponent form from 22 digits on, and [Infinity] past the largest
    double. *)
Definition number_text (n : Z) : string :=
  if Z.abs n <=? max_safe_integer then pretty n
  else
    let sign := if n <? 0 then "-" else "" in
    let x := nearest_double (Z.abs n) in
    if 2 ^ 1024 <=? x then sign +:+ "Infinity"
    else
      let digits := Z.of_nat (String.length (pretty x)) in
      let v := shortest (Z.to_nat digits) 1 x digits in
      let d := pretty v in
      if (String.length d <=? 21)%nat then sign +:+ d
      else
        match strip_zeros d with
        | String c EmptyString =>
            sign +:+ String c EmptyString +:+ "e+"
                 +:+ pretty (Z.of_nat (String.length d) - 1)
        | String c rest =>
            sign +:+ String c ("." +:+ rest) +:+ "e+"
                 +:+ pretty (Z.of_nat (String.length d) - 1)
        | EmptyString => sign +:+ d
        end.

(** [ToString], as a template literal applies it to a substitution. An array
    joins its elements with a comma ([null] and [undefined] print as the empty
    string); a plain object prints as [[object Object]], unless it has an own
    property [toString]: JSON data holds no function, so no method is left to
    convert the object and the conversion throws. *)
Fixpoint to_string (v : JsValue) : Result string :=
  match v with
  | JUndefined => Ok "undefined"
  | JNull => Ok "null"
  | JBool true => Ok "true"
  | JBool false => Ok "false"
  | JNum n => Ok (number_text n)
  | JStr s => Ok s
  | JArr items =>
      (fix join (l : list JsValue) : Result string :=
         match l with
         | [] => Ok ""
         | x :: rest =>
             let first :=
               match x with
               | JUndefined | JNull => Ok ""
               | _ => to_string x
               end in
             match first, rest with
             | Raise e, _ => Raise e
             | Ok s, [] => Ok s
             | Ok s, _ :: _ =>
                 match join rest with
                 | Ok r => Ok (s +:+ "," +:+ r)
                 | Raise e => Raise e
                 end
             end
         end) items
  | JObj props =>
      match props !! "toString" with
      | Some _ => Raise (TypeError "Cannot convert object to primitive value")
      | None => Ok "[object Object]"
      end
  end.

End Js.
Export Js.

(** ** The main process: state, environment and effects *)

Module Main.

Variant Method : Type := GET | POST.

(** A call of [axios.post(url, data, config)]; [config] is the options object
    as the caller wrote it. *)
Record AxiosCall : Type := mkCall {
  ac_method : Method;
  ac_url : string;
  ac_data : JsValue;
  ac_config : gmap string JsValue
}.

(** How the promise of a call settles. *)
Inductive AxiosReply : Type :=
  | Resolves (response : JsValue)
  | Rejects (error : JsError).

Inductive FsCall : Type :=
  | ExistsSync (path : string)
  | ReadFileSync (path : string)
  | WriteFileSync (path data : string).

(** The module variable [settings] of main.js, together with the environment
    the process acts on: the regular files of the disk with their text, the
    paths whose access the system refuses, the lines written by
    [console.error], the answer of the network to each call, and the traces
    of the calls made so far (latest first). *)
Record World : Type := mkWorld {
  settings : JsValue;
  files : gmap string string;
  denied : gset string;
  console : list (string * JsError);
  network : AxiosCall -> AxiosReply;
  sent : list AxiosCall;
  fs_calls : list FsCall
}.

Definition set_settings (v : JsValue) (w : World) : World :=
  mkWorld v (files w) (denied w) (console w) (network w) (sent w) (fs_calls w).

Definition set_files (f : gmap string string) (w : World) : World :=
  mkWorld (settings w) f (denied w) (console w) (network w) (sent w) (fs_calls w).

Definition log_console (label : string) (e : JsError) (w : World) : World :=
  mkWorld (settings w) (files w) (denied w) ((label, e) :: console w)
          (network w) (sent w) (fs_calls w).

Definition log_sent (c : AxiosCall) (w : World) : World :=
  mkWorld (settings w) (files w) (denied w) (console w) (network w)
          (c :: sent w) (fs_calls w).

Definition log_fs (c : FsCall) (w : World) : World :=
  mkWorld (settings w) (files w) (denied w) (console w) (network w) (sent w)
          (c :: fs_calls w).

(** A computation either returns a value or throws, and leaves a world. *)
Inductive Outcome (A : Type) : Type :=
  | Return (a : A) (w : World)
  | Throw (e : JsError) (w : World).
Arguments Return {A} a w.
Arguments Throw {A} e w.

Definition M (A : Type) : Type := World -> Outcome A.

Definition ret {A : Type} (a : A) : M A := fun w => Return a w.

Definition bind {A B : Type} (m : M A) (k : A -> M B) : M B :=
  fun w =>
    match m w with
    | Return a w' => k a w'
    | Throw e w' => Throw e w'
    end.

Definition throw {A : Type} (e : JsError) : M A := fun w => Throw e w.

(** [try { body } catch (error) { handler }] *)
Definition try_catch {A : Type} (body : M A) (handler : JsError -> M A) : M A :=
  fun w =>
    match body w with
    | Return a w' => Return a w'
    | Throw e w' => handler e w'
    end.

Definition eval {A : Type} (r : Result A) : M A :=
  match r with
  | Ok a => ret a
  | Raise e => throw e
  end.

Definition world_of {A : Type} (o : Outcome A) : World :=
  match o with
  | Return _ w => w
  | Throw _ w => w
  end.

Definition value_of {A : Type} (o : Outcome A) : option A :=
  match o with
  | Return a _ => Some a
  | Throw _ _ => None
  end.

Declare Scope js_scope.
Delimit Scope js_scope with js.
Notation "'let!' x ':=' m 'in' k" := (bind m (fun x => k))
  (at level 10, x name, m at level 100, k at level 200, only parsing) : js_scope.
Notation "m ';;' k" := (bind m (fun _ => k))
  (at level 100, k at level 200, right associativity, only parsing) : js_scope.
Open Scope js_scope.

(** *** Node's [fs] and [console] *)

Definition SystemError (code reason syscall path : string) : JsError :=
  mkError "Error"
          (code +:+ ": " +:+ reason +:+ ", " +:+ syscall +:+ " '" +:+ path +:+ "'")
          None.

Definition EACCES (path : string) : JsError :=
  SystemError "EACCES" "permission denied" "open" path.

Definition ENOENT (path : string) : JsError :=
  SystemError "ENOENT" "no such file or directory" "open" path.

Definition existsSync (path : string) : M bool :=
  fun w => Return (bool_decide (is_Some (files w !! path))) (log_fs (ExistsSync path) w).

Definition readFileSync (path : string) : M string :=
  fun w =>
    let w' := log_fs (ReadFileSync path) w in
    if decide (path ∈ denied w) then Throw (EACCES path) w'
    else match files w !! path with
         | Some text => Return text w'
         | None => Throw (ENOENT path) w'
         end.

(** [fs.writeFileSync]: the failure in the model is the refusal to open the
    file ([EACCES]), which leaves the file as it is. A write that fails after
    the file was opened (a full disk) is not in the model; the state such a
    write leaves on the disk is the one of [interrupted_write] below. *)
Definition writeFileSync (path data : string) : M unit :=
  fun w =>
    let w' := log_fs (WriteFileSync path data) w in
    if decide (path ∈ denied w) then Throw (EACCES path) w'
    else Return tt (set_files (<[path := data]> (files w)) w').

Definition console_error (label : string) (e : JsError) : M unit :=
  fun w => Return tt (log_console label e w).

(** *** axios *)

(** [await axios.post(url, data, config)]: the call goes out, and the promise
    resolves with the response or rejects with an error, as the network
    decides. *)
Definition axios_post (url : string) (data : JsValue)
    (config : gmap string JsValue) : M JsValue :=
  fun w =>
    let call := mkCall POST url data config in
    match network w call with
    | Resolves response => Return response (log_sent call w)
    | Rejects error => Throw error (log_sent call w)
    end.

(** ** main.js *)

Section Program.

(** [path.join(app.getPath('userData'), 'settings.json')] *)
Variable settingsPath : string.
(** [JSON.parse], which throws a [SyntaxError] on a text that is not JSON. *)
Variable JSON_parse : string -> Result JsValue.
(** [JSON.stringify(value, null, 2)] *)
Variable JSON_stringify : JsValue -> string.

(** [let settings = { piAddress: '192.168.1.100', piPort: 8080 }] *)
Definition initial_settings : JsValue :=
  JObj (<["piAddress" := JStr "192.168.1.100"]> (<["piPort" := JNum 8080]> ∅)).

(** The world in which the application starts: [settings] holds its initial
    value and nothing has been logged or sent. *)
Definition boot (f : gmap string string) (d : gset string)
    (net : AxiosCall -> AxiosReply) : World :=
  mkWorld initial_settings f d [] net [] [].

Definition loadSettings : M unit :=
  try_catch
    (let! found := existsSync settingsPath in
     if found then
       let! text := readFileSync settingsPath in
       let! parsed := eval (JSON_parse text) in
       fun w => Return tt (set_settings parsed w)
     else ret tt)
    (fun error => console_error "Error loading settings:" error).

Definition saveSettings : M unit :=
  try_catch
    (fun w => writeFileSync settingsPath (JSON_stringify (settings w)) w)
    (fun error => console_error "Error saving settings:" error).

(** [createWindow] starts with [loadSettings()]; the window it then opens is
    not part of the model. *)
Definition createWindow : M unit := loadSettings.

(** [ipcMain.handle('get-settings', ...)] *)
Definition get_settings : M JsValue :=
  fun w => Return (settings w) w.

(** [ipcMain.handle('save-settings', ...)] *)
Definition save_settings (newSettings : JsValue) : M JsValue :=
  (fun w => Return tt (set_settings (spread (settings w) newSettings) w));;
  saveSettings;;
  ret (JObj (<["success" := JBool true]> ∅)).

Definition delivered : JsValue :=
  JObj (<["success" := JBool true]>
        (<["message" := JStr "Announcement sent successfully!"]> ∅)).

Definition failed (error : JsError) : JsValue :=
  JObj (<["success" := JBool false]>
        (<["message" := JStr ("Failed to send announcement: " +:+ err_message error)]> ∅)).

(** The template literal
    [`http://${settings.piAddress}:${settings.piPort}/play`]: each
    substitution is read and converted to a string, from left to right. *)
Definition play_url (s : JsValue) : Result string :=
  and_then (get_prop s "piAddress") (fun address =>
  and_then (to_string address) (fun host =>
  and_then (get_prop s "piPort") (fun piPort =>
  and_then (to_string piPort) (fun port =>
  Ok ("http://" +:+ host +:+ ":" +:+ port +:+ "/play"))))).

(** [ipcMain.handle('play-announcement', ...)]. The [require('axios')] that
    opens the handler is taken to find the module. *)
Definition play_announcement (audioFile : JsValue) : M JsValue :=
  try_catch
    (let! url := (fun w => eval (play_url (settings w)) w) in
     let! response :=
       axios_post url
                  (JObj (<["audio" := audioFile]> ∅))
                  (<["timeout" := JNum 5000]> ∅) in
     ret delivered)
    (fun error => ret (failed error)).

End Program.

End Main.
Import Main.

(** ** renderer.js: the settings dialog *)

Module Renderer.

(** The object the click handler of the save button builds from the three
    input boxes and hands to [window.electronAPI.saveSettings], the bridge to
    the [save-settings] handler. The value of an input box is a string,
    whatever was typed. *)
Definition newSettings (pi_address pi_port api_token : string) : JsValue :=
  JObj (<["piAddress" := JStr pi_address]>
        (<["piPort" := JStr pi_port]>
         (<["apiToken" := JStr api_token]> ∅))).

(** The same object in the variant of the dialog that has no token box. *)
Definition newSettings_without_token (pi_address pi_port : string) : JsValue :=
  JObj (<["piAddress" := JStr pi_address]>
        (<["piPort" := JStr pi_port]> ∅)).

End Renderer.

(** ** The vocabulary of the specification *)

Module Spec.

(** A port of a Connection Profile: an integer between 1 and 65535. *)
Definition is_valid_port (v : JsValue) : bool :=
  match v with
  | JNum n => (1 <=? n) && (n <=? 65535)
  | _ => false
  end.

(** The default profile the specification documents, under the names of the
    persisted settings: empty address, port 8080, empty credential. *)
Definition documented_default : JsValue :=
  JObj (<["piAddress" := JStr ""]>
        (<["piPort" := JNum 8080]>
         (<["apiToken" := JStr ""]> ∅))).



(** The header an authenticated request carries for a credential. *)
Definition bearer (credential : string) : JsValue :=
  JObj (<["Authorization" := JStr ("Bearer " +:+ credential)]> ∅).

End Spec.

(** ** The disk when a write is interrupted *)

(** [fs.writeFileSync(path, data)] opens [path] for writing, which creates or
    empties the file, and then writes [data] from its start. A process that
    stops in between leaves the file with the characters written so far. *)
Inductive interrupted_write (path data : string) (f : gmap string string) :
    gmap string string -> Prop :=
  | written_up_to (k : nat) :
      (k <= String.length data)%nat ->
      interrupted_write path data f (<[path := String.substring 0 k data]> f).

(** ** Concrete worlds, to run the model *)

Module Sample.

Definition settings_json : string :=
  "/home/salon/.config/GroomingAlertSystem/settings.json".

Definition quoted (s : string) : string :=
  String (Ascii.ascii_of_nat 34) s +:+ String (Ascii.ascii_of_nat 34) EmptyString.

Definition print_scalar (v : JsValue) : string :=
  match v with
  | JBool true => "true"
  | JBool false => "false"
  | JNum n => pretty n
  | JStr s => quoted s
  | _ => "null"
  end.

(** A serializer for the examples: a flat object of scalars, printed as JSON
    on one line. The theorems hold for every serializer; this one runs them
    on concrete profiles. *)
Definition print_json (v : JsValue) : string :=
  match v with
  | JObj props =>
      "{" +:+ String.concat ","
                (map (fun kv : string * JsValue =>
                        quoted kv.1 +:+ ":" +:+ print_scalar kv.2)
                     (map_to_list props))
          +:+ "}"
  | _ => print_scalar v
  end.

Definition SyntaxError (text : string) : JsError :=
  mkError "SyntaxError" ("Unexpected token in JSON: " +:+ text) None.

(** A parser for the examples: it reads the three JSON literals and refuses
    every other text. The theorems hold for every parser. *)
Definition parse_literal (text : string) : Result JsValue :=
  if String.eqb text "null" then Ok JNull
  else if String.eqb text "true" then Ok (JBool true)
  else if String.eqb text "false" then Ok (JBool false)
  else Raise (SyntaxError text).

(** Errors in the shape axios reports them: a status outside 2xx, and a
    connection that the host refuses. *)
Definition status_error (status : Z) : JsError :=
  mkError "AxiosError" ("Request failed with status code " +:+ pretty status)
          (Some status).

Definition refused_error (host port : string) : JsError :=
  mkError "Error" ("connect ECONNREFUSED " +:+ host +:+ ":" +:+ port) None.

Definition timeout_error : JsError :=
  mkError "AxiosError" "timeout of 5000ms exceeded" None.

(** Networks: nobody listens; a daemon that plays; a daemon that is busy. *)
Definition offline : AxiosCall -> AxiosReply :=
  fun _ => Rejects (refused_error "192.168.1.100" "8080").

Definition playing : AxiosCall -> AxiosReply :=
  fun _ => Resolves (JObj (<["status" := JNum 200]> ∅)).

Definition busy : AxiosCall -> AxiosReply :=
  fun _ => Rejects (status_error 409).

(** The world after the operator saved address, port and token in the
    settings dialog. *)
Definition configured (pi_address pi_port api_token : string)
    (net : AxiosCall -> AxiosReply) : World :=
  world_of (save_settings settings_json print_json
              (Renderer.newSettings pi_address pi_port api_token)
              (boot ∅ ∅ net)).

(** A second parser for the examples, which reads back what [print_json]
    prints: a flat object whose values are strings without escapes, integers
    and the three literals. As with [JSON.parse], a repeated key keeps its
    last value. *)
Fixpoint read_quoted (s : string) : option (string * string) :=
  match s with
  | EmptyString => None
  | String c rest =>
      if Ascii.eqb c (Ascii.ascii_of_nat 34) then Some (EmptyString, rest)
      else match read_quoted rest with
           | Some (body, tail) => Some (String c body, tail)
           | None => None
           end
  end.

Definition comma : Ascii.ascii := Ascii.ascii_of_nat 44.
Definition colon : Ascii.ascii := Ascii.ascii_of_nat 58.
Definition minus : Ascii.ascii := Ascii.ascii_of_nat 45.
Definition open_brace : Ascii.ascii := Ascii.ascii_of_nat 123.
Definition close_brace : Ascii.ascii := Ascii.ascii_of_nat 125.

(** [s] without its first character, when that is [c]. *)
Definition after (c : Ascii.ascii) (s : string) : option string :=
  match s with
  | String c' rest => if Ascii.eqb c' c then Some rest else None
  | EmptyString => None
  end.

Fixpoint read_token (s : string) : string * string :=
  match s with
  | EmptyString => (EmptyString, EmptyString)
  | String c rest =>
      if Ascii.eqb c comma || Ascii.eqb c close_brace then (EmptyString, s)
      else let (token, tail) := read_token rest in (String c token, tail)
  end.

Fixpoint read_digits (s : string) (acc : Z) : option Z :=
  match s with
  | EmptyString => Some acc
  | String c rest =>
      let d := Z.of_nat (Ascii.nat_of_ascii c) - 48 in
      if (0 <=? d) && (d <=? 9) then read_digits rest (10 * acc + d) else None
  end.

Definition read_scalar (token : string) : option JsValue :=
  if String.eqb token "null" then Some JNull
  else if String.eqb token "true" then Some (JBool true)
  else if String.eqb token "false" then Some (JBool false)
  else match token, after minus token with
       | EmptyString, _ => None
       | _, Some EmptyString => None
       | _, Some digits => (fun n => JNum (- n)) <$> read_digits digits 0
       | _, None => JNum <$> read_digits token 0
       end.

Definition read_value (s : string) : option (JsValue * string) :=
  match after (Ascii.ascii_of_nat 34) s with
  | Some rest =>
      match read_quoted rest with
      | Some (body, tail) => Some (JStr body, tail)
      | None => None
      end
  | None =>
      let (token, tail) := read_token s in
      match read_scalar token with
      | Some v => Some (v, tail)
      | None => None
      end
  end.

Fixpoint read_members (fuel : nat) (s : string) (acc : gmap string JsValue) :
    option (gmap string JsValue) :=
  match fuel with
  | O => None
  | S fuel' =>
      match after (Ascii.ascii_of_nat 34) s with
      | None => None
      | Some rest =>
          match read_quoted rest with
          | None => None
          | Some (key, rest1) =>
              match after colon rest1 with
              | None => None
              | Some rest2 =>
                  match read_value rest2 with
                  | None => None
                  | Some (v, rest3) =>
                      match after comma rest3, after close_brace rest3 with
                      | Some rest4, _ => read_members fuel' rest4 (<[key := v]> acc)
                      | None, Some EmptyString => Some (<[key := v]> acc)
                      | None, _ => None
                      end
                  end
              end
          end
      end
  end.

Definition parse_flat (text : string) : Result JsValue :=
  match after open_brace text with
  | Some rest =>
      match after close_brace rest with
      | Some EmptyString => Ok (JObj ∅)
      | _ =>
          match read_members (String.length text) rest ∅ with
          | Some props => Ok (JObj props)
          | None => Raise (SyntaxError text)
          end
      end
  | None =>
      match read_scalar text with
      | Some v => Ok v
      | None => Raise (SyntaxError text)
      end
  end.

End Sample.

(** ** renderer.js: the page *)

(** The renderer exists in two variants: one reports with a snackbar and
    its dialog has an address box and a port box; the other reports with a
    toast and its dialog has a token box as well. Both act on the same few
    elements of the page, modelled here by what the scripts read and write:
    the texts of the input boxes (taken to be text boxes, which keep the
    string assigned to them), the [show] class of the dialog and of the
    notification, the text, icon and class name of the notification, and the
    timers that are pending. A call of [window.electronAPI] is a message to
    the main process; the functions below are the steps a handler runs once
    the answer has arrived, with the answer as argument. *)

Module View.

(** Truthiness, as [if] and [||] test it. *)
Definition truthy (v : JsValue) : bool :=
  match v with
  | JUndefined | JNull => false
  | JBool b => b
  | JNum n => negb (n =? 0)
  | JStr s => negb (String.eqb s "")
  | JArr _ | JObj _ => true
  end.

(** [a || b] *)
Definition or_else (a b : JsValue) : JsValue :=
  if truthy a then a else b.

(** The text an element shows after [element.textContent = v]: [null] and
    [undefined] clear it, any other value is converted to a string. *)
Definition text_content (v : JsValue) : Result string :=
  match v with
  | JUndefined | JNull => Ok ""
  | _ => to_string v
  end.

Record Boxes : Type := mkBoxes {
  pi_address : string;
  pi_port : string;
  api_token : string
}.

Record Note : Type := mkNote {
  note_icon : string;
  note_message : string;
  note_class : string;
  note_shown : bool
}.

(** The identifiers of the timers that have not fired yet, oldest first (the
    timers of one notification all wait equally long, so they fire in this
    order), and the identifier the next [setTimeout] returns. *)
Record Timers : Type := mkTimers {
  pending : list positive;
  next_timer : positive
}.

Record Page : Type := mkPage {
  currentSettings : JsValue;
  boxes : Boxes;
  modal_shown : bool;
  note : Note;
  snackbarTimeout : option positive;
  clock : Timers
}.

Definition set_currentSettings (v : JsValue) (p : Page) : Page :=
  mkPage v (boxes p) (modal_shown p) (note p) (snackbarTimeout p) (clock p).

Definition set_boxes (b : Boxes) (p : Page) : Page :=
  mkPage (currentSettings p) b (modal_shown p) (note p) (snackbarTimeout p) (clock p).

Definition set_modal_shown (b : bool) (p : Page) : Page :=
  mkPage (currentSettings p) (boxes p) b (note p) (snackbarTimeout p) (clock p).

Definition set_note (n : Note) (p : Page) : Page :=
  mkPage (currentSettings p) (boxes p) (modal_shown p) n (snackbarTimeout p) (clock p).

Definition set_snackbarTimeout (t : option positive) (p : Page) : Page :=
  mkPage (currentSettings p) (boxes p) (modal_shown p) (note p) t (clock p).

Definition set_clock (c : Timers) (p : Page) : Page :=
  mkPage (currentSettings p) (boxes p) (modal_shown p) (note p) (snackbarTimeout p) c.

(** A step of a handler returns or throws, and leaves a page. *)
Inductive Step (A : Type) : Type :=
  | Done (a : A) (p : Page)
  | Fails (e : JsError) (p : Page).
Arguments Done {A} a p.
Arguments Fails {A} e p.

Definition page_of {A : Type} (s : Step A) : Page :=
  match s with
  | Done _ p => p
  | Fails _ p => p
  end.

Definition and_next {A B : Type} (m : Page -> Step A) (k : A -> Page -> Step B) :
    Page -> Step B :=
  fun p =>
    match m p with
    | Done a p' => k a p'
    | Fails e p' => Fails e p'
    end.

Definition compute {A : Type} (r : Result A) : Page -> Step A :=
  fun p =>
    match r with
    | Ok a => Done a p
    | Raise e => Fails e p
    end.

(** [setTimeout(callback, delay)]: every timer of the page runs the same
    callback, which removes [show] from the notification. *)
Definition setTimeout : Page -> Step positive :=
  fun p =>
    Done (next_timer (clock p))
         (set_clock (mkTimers (pending (clock p) ++ [next_timer (clock p)])
                              (Pos.succ (next_timer (clock p)))) p).

Definition clearTimeout (id : positive) : Page -> Step unit :=
  fun p =>
    Done tt (set_clock (mkTimers (filter (fun t => t <> id) (pending (clock p)))
                                 (next_timer (clock p))) p).

Definition hide_note (p : Page) : Page :=
  set_note (mkNote (note_icon (note p)) (note_message (note p))
                   (note_class (note p)) false) p.

(** The timer [id] fires: if it is still pending, its callback runs. *)
Definition fire (id : positive) (p : Page) : Page :=
  if decide (id ∈ pending (clock p)) then
    hide_note (set_clock (mkTimers (filter (fun t => t <> id) (pending (clock p)))
                                   (next_timer (clock p))) p)
  else p.

(** [element.value = settings.key || fallback] for one box. *)
Definition box_text (fetched : JsValue) (key fallback : string) : Result string :=
  and_then (get_prop fetched key) (fun v => to_string (or_else v (JStr fallback))).

(** The clicks that only open or close the dialog. *)
Definition open_settings (p : Page) : Page := set_modal_shown true p.
Definition cancel_click (p : Page) : Page := set_modal_shown false p.
Definition modal_click (target_id : string) (p : Page) : Page :=
  if String.eqb target_id "settings-modal" then set_modal_shown false p else p.

(** *** The variant with the snackbar *)

Module Snackbar.

(** [loadSettings], from the answer of [getSettings] on. *)
Definition loadSettings (fetched : JsValue) : Page -> Step unit :=
  and_next (fun p => Done tt (set_currentSettings fetched p)) (fun _ =>
  and_next (compute (box_text fetched "piAddress" "")) (fun address =>
  and_next (fun p => Done tt (set_boxes (mkBoxes address (pi_port (boxes p))
                                           (api_token (boxes p))) p)) (fun _ =>
  and_next (compute (box_text fetched "piPort" "8080")) (fun port =>
  fun p => Done tt (set_boxes (mkBoxes (pi_address (boxes p)) port
                                 (api_token (boxes p))) p))))).

Definition showSnackbar (message : JsValue) (type : string) : Page -> Step unit :=
  and_next (fun p =>
              match snackbarTimeout p with
              | Some id => clearTimeout id p
              | None => Done tt p
              end) (fun _ =>
  and_next (fun p =>
              Done tt
                (if String.eqb type "success" then
                   set_note (mkNote "check_circle" (note_message (note p))
                               (note_class (note p)) (note_shown (note p))) p
                 else if String.eqb type "error" then
                   set_note (mkNote "error" (note_message (note p))
                               (note_class (note p)) (note_shown (note p))) p
                 else p)) (fun _ =>
  and_next (compute (text_content message)) (fun text =>
  and_next (fun p =>
              Done tt (set_note (mkNote (note_icon (note p)) text
                                   ("snackbar " +:+ type) true) p)) (fun _ =>
  and_next setTimeout (fun id =>
  fun p => Done tt (set_snackbarTimeout (Some id) p)))))).

(** The click on an announcement button, from the answer of
    [playAnnouncement] on. *)
Definition announcement_done (result : JsValue) : Page -> Step unit :=
  and_next (compute (get_prop result "success")) (fun success =>
  if truthy success then
    and_next (compute (get_prop result "message")) (fun message =>
    showSnackbar message "success")
  else
    and_next (compute (get_prop result "message")) (fun message =>
    showSnackbar message "error")).

(** The click on the save button: the object sent to [saveSettings], and the
    steps that follow its answer, which is not looked at. *)
Definition save_click (p : Page) : JsValue :=
  Renderer.newSettings_without_token (pi_address (boxes p)) (pi_port (boxes p)).

Definition save_done (answer : JsValue) : Page -> Step unit :=
  and_next (fun p => Done tt (set_modal_shown false p)) (fun _ =>
  showSnackbar (JStr "Settings saved successfully!") "success").

End Snackbar.

(** *** The variant with the toast *)

Module Toast.

Definition loadSettings (fetched : JsValue) : Page -> Step unit :=
  and_next (fun p => Done tt (set_currentSettings fetched p)) (fun _ =>
  and_next (compute (box_text fetched "piAddress" "")) (fun address =>
  and_next (fun p => Done tt (set_boxes (mkBoxes address (pi_port (boxes p))
                                           (api_token (boxes p))) p)) (fun _ =>
  and_next (compute (box_text fetched "piPort" "8080")) (fun port =>
  and_next (fun p => Done tt (set_boxes (mkBoxes (pi_address (boxes p)) port
                                           (api_token (boxes p))) p)) (fun _ =>
  and_next (compute (box_text fetched "apiToken" "")) (fun token =>
  fun p => Done tt (set_boxes (mkBoxes (pi_address (boxes p)) (pi_port (boxes p))
                                 token) p))))))).

(** [showToast]: the timer it starts is not kept, and no earlier timer is
    cleared. *)
Definition showToast (message : JsValue) (type : string) : Page -> Step unit :=
  and_next (compute (text_content message)) (fun text =>
  and_next (fun p =>
              Done tt (set_note (mkNote (note_icon (note p)) text
                                   ("toast " +:+ type) true) p)) (fun _ =>
  and_next setTimeout (fun _ =>
  fun p => Done tt p))).

Definition announcement_done (result : JsValue) : Page -> Step unit :=
  and_next (compute (get_prop result "success")) (fun success =>
  if truthy success then
    and_next (compute (get_prop result "message")) (fun message =>
    showToast message "success")
  else
    and_next (compute (get_prop result "message")) (fun message =>
    showToast message "error")).

Definition save_click (p : Page) : JsValue :=
  Renderer.newSettings (pi_address (boxes p)) (pi_port (boxes p))
                       (api_token (boxes p)).

Definition save_done (answer : JsValue) : Page -> Step unit :=
  and_next (fun p => Done tt (set_modal_shown false p)) (fun _ =>
  showToast (JStr "Settings saved successfully!") "success").

End Toast.

End View.

(** ** The window of the application *)

(** The rest of main.js: the variable [mainWindow] and the handlers of the
    events of the application. Electron emits [ready] once, [activate] when
    the application is activated, [closed] on a window when it has been
    closed, and [window-all-closed] when the last window is gone. *)

Module Lifecycle.

(** [mainWindow]: not yet assigned, [null], or the window. *)
Variant WindowRef : Type := Unassigned | Null | Window.

Record App : Type := mkApp {
  world : World;
  mainWindow : WindowRef;
  windows : nat;
  running : bool
}.

Variant Event : Type := Ready | Activate | Closed.

Section Handlers.

Variable settingsPath : string.
Variable JSON_parse : string -> Result JsValue.
(** [process.platform] *)
Variable platform : string.

Definition launch (w : World) : App := mkApp w Unassigned 0 true.

(** [createWindow]: load the settings, then open the window and keep it in
    [mainWindow]. *)
Definition createWindow (a : App) : App :=
  match Main.createWindow settingsPath JSON_parse (world a) with
  | Return _ w' => mkApp w' Window (S (windows a)) (running a)
  | Throw _ w' => mkApp w' (mainWindow a) (windows a) (running a)
  end.

(** [mainWindow.on('closed', ...)] *)
Definition on_closed (a : App) : App :=
  mkApp (world a) Null (pred (windows a)) (running a).

(** [app.on('window-all-closed', ...)] *)
Definition on_window_all_closed (a : App) : App :=
  if String.eqb platform "darwin" then a
  else mkApp (world a) (mainWindow a) (windows a) false.

(** [app.on('activate', ...)]: the test is [mainWindow === null]. *)
Definition on_activate (a : App) : App :=
  match mainWindow a with
  | Null => createWindow a
  | _ => a
  end.

(** One event; an application that has quit handles none, and [closed] needs
    an open window. *)
Definition handle (a : App) (ev : Event) : App :=
  if running a then
    match ev with
    | Ready => createWindow a
    | Activate => on_activate a
    | Closed =>
        match windows a with
        | O => a
        | S _ =>
            let a' := on_closed a in
            match windows a' with
            | O => on_window_all_closed a'
            | S _ => a'
            end
        end
    end
  else a.

Definition run (a : App) (evs : list Event) : App := fold_left handle evs a.

End Handlers.

End Lifecycle.

(** ** The operator at the controller *)

(** The renderer and the main process together. The preload script, which
    is not among the sources, is taken to forward each call of
    [window.electronAPI] to the handler of the channel of the same name and
    to hand its result back. *)

Module Desktop.

Record Desktop : Type := mkDesktop {
  main : World;
  page : View.Page
}.

Section Clicks.

Variable settingsPath : string.
Variable JSON_stringify : JsValue -> string.

(** A click on an announcement button whose [data-audio] is [audioFile], in
    the variant with the snackbar. *)
Definition click_announcement (audioFile : string) (d : Desktop) : Desktop :=
  match play_announcement (JStr audioFile) (main d) with
  | Return result w' =>
      mkDesktop w' (View.page_of (View.Snackbar.announcement_done result (page d)))
  | Throw _ w' => mkDesktop w' (page d)
  end.

(** A click on the save button of the dialog, in the variant with the
    toast. *)
Definition click_save (d : Desktop) : Desktop :=
  match save_settings settingsPath JSON_stringify
          (View.Toast.save_click (page d)) (main d) with
  | Return answer w' =>
      mkDesktop w' (View.page_of (View.Toast.save_done answer (page d)))
  | Throw _ w' => mkDesktop w' (page d)
  end.

(** Opening the dialog, in the variant with the toast: the dialog shows, and
    the boxes are filled once the profile has arrived. *)
Definition click_settings (d : Desktop) : Desktop :=
  match get_settings (main d) with
  | Return fetched w' =>
      mkDesktop w' (View.page_of (View.Toast.loadSettings fetched
                                    (View.open_settings (page d))))
  | Throw _ w' => mkDesktop w' (View.open_settings (page d))
  end.

End Clicks.

End Desktop.

(** ** Invariants and sample pages *)

(** The pending timers of the variant with the snackbar: none, or the one
    kept in [snackbarTimeout]. *)
Definition one_timer (p : View.Page) : Prop :=
  View.pending (View.clock p) = []
  \/ exists id, View.snackbarTimeout p = Some id
                /\ View.pending (View.clock p) = [id].

(** What happens on the page of the variant with the snackbar: a snackbar
    is shown, or a timer fires. *)
Inductive SnackbarEvent : Type :=
  | Shows (message : JsValue) (type : string)
  | Fires (id : positive).

Definition snackbar_step (p : View.Page) (ev : SnackbarEvent) : View.Page :=
  match ev with
  | Shows message type => View.page_of (View.Snackbar.showSnackbar message type p)
  | Fires id => View.fire id p
  end.

(** The window and the variable agree: one window kept in [mainWindow], or
    none and [mainWindow] is [null]. *)
Definition window_tracked (a : Lifecycle.App) : Prop :=
  (Lifecycle.mainWindow a = Lifecycle.Window /\ Lifecycle.windows a = 1%nat)
  \/ (Lifecycle.mainWindow a = Lifecycle.Null /\ Lifecycle.windows a = 0%nat).

Module Scene.

(** A page on which nothing has happened yet. *)
Definition blank_page : View.Page :=
  View.mkPage JUndefined (View.mkBoxes "" "" "") false
              (View.mkNote "" "" "" false) None (View.mkTimers [] 1%positive).

(** The page with the dialog open and filled in by the operator. *)
Definition filled_page (pi_address pi_port api_token : string) : View.Page :=
  View.set_boxes (View.mkBoxes pi_address pi_port api_token)
                 (View.open_settings blank_page).

End Scene.

(** * Properties *)

Import Spec Sample.

(** ** Running the effects *)

Ltac unfold_effects :=
  unfold loadSettings, saveSettings, createWindow, get_settings, save_settings,
    play_announcement, try_catch, bind, ret, throw, eval, existsSync,
    readFileSync, writeFileSync, console_error, axios_post.

Section Settings_store.

Variable settingsPath : string.
Variable JSON_parse : string -> Result JsValue.
Variable JSON_stringify : JsValue -> string.

Lemma loadSettings_no_file (w : World) :
  files w !! settingsPath = None ->
  loadSettings settingsPath JSON_parse w
  = Return tt (log_fs (ExistsSync settingsPath) w).
Proof.
  intros Hnone. unfold_effects. rewrite Hnone. reflexivity.
Qed.

Lemma loadSettings_unreadable (w : World) :
  is_Some (files w !! settingsPath) ->
  settingsPath ∈ denied w ->
  loadSettings settingsPath JSON_parse w
  = Return tt
      (log_console "Error loading settings:" (EACCES settingsPath)
         (log_fs (ReadFileSync settingsPath)
            (log_fs (ExistsSync settingsPath) w))).
Proof.
  intros [text Htext] Hdenied. unfold_effects. rewrite Htext. simpl.
  destruct (decide (settingsPath ∈ denied w)) as [_ | Hno]; [reflexivity | ].
  contradiction.
Qed.

Lemma loadSettings_unparsable (w : World) (text : string) (e : JsError) :
  files w !! settingsPath = Some text ->
  settingsPath ∉ denied w ->
  JSON_parse text = Raise e ->
  loadSettings settingsPath JSON_parse w
  = Return tt
      (log_console "Error loading settings:" e
         (log_fs (ReadFileSync settingsPath)
            (log_fs (ExistsSync settingsPath) w))).
Proof.
  intros Htext Hfree Hparse. unfold_effects. rewrite Htext. simpl.
  destruct (decide (settingsPath ∈ denied w)) as [Hyes | _]; [contradiction | ].
  rewrite Htext, Hparse. reflexivity.
Qed.

(** X2. When the settings file exists, can be read and parses, [settings]
    becomes the parsed value as a whole: it is not merged with the initial
    profile and not checked to be an object. *)
Lemma loadSettings_parsed (w : World) (text : string) (v : JsValue) :
  files w !! settingsPath = Some text ->
  settingsPath ∉ denied w ->
  JSON_parse text = Ok v ->
  loadSettings settingsPath JSON_parse w
  = Return tt
      (set_settings v
         (log_fs (ReadFileSync settingsPath)
            (log_fs (ExistsSync settingsPath) w))).
Proof.
  intros Htext Hfree Hparse. unfold_effects. rewrite Htext. simpl.
  destruct (decide (settingsPath ∈ denied w)) as [Hyes | _]; [contradiction | ].
  rewrite Htext, Hparse. reflexivity.
Qed.

Lemma saveSettings_written (w : World) :
  settingsPath ∉ denied w ->
  saveSettings settingsPath JSON_stringify w
  = Return tt
      (set_files (<[settingsPath := JSON_stringify (settings w)]> (files w))
         (log_fs (WriteFileSync settingsPath (JSON_stringify (settings w))) w)).
Proof.
  intros Hfree. unfold_effects.
  destruct (decide (settingsPath ∈ denied w)) as [Hyes | _]; [contradiction | ].
  reflexivity.
Qed.

Lemma saveSettings_refused (w : World) :
  settingsPath ∈ denied w ->
  saveSettings settingsPath JSON_stringify w
  = Return tt
      (log_console "Error saving settings:" (EACCES settingsPath)
         (log_fs (WriteFileSync settingsPath (JSON_stringify (settings w))) w)).
Proof.
  intros Hdenied. unfold_effects.
  destruct (decide (settingsPath ∈ denied w)) as [_ | Hno]; [reflexivity | ].
  contradiction.
Qed.

(** [saveSettings] never throws and never touches [settings]. *)
Lemma saveSettings_returns (w : World) :
  exists w', saveSettings settingsPath JSON_stringify w = Return tt w'
             /\ settings w' = settings w.
Proof.
  destruct (decide (settingsPath ∈ denied w)) as [Hdenied | Hfree].
  - eexists. split; [apply saveSettings_refused; assumption | reflexivity].
  - eexists. split; [apply saveSettings_written; assumption | reflexivity].
Qed.

Lemma save_settings_unfold (newSettings : JsValue) (w : World) :
  save_settings settingsPath JSON_stringify newSettings w
  = match saveSettings settingsPath JSON_stringify
            (set_settings (spread (settings w) newSettings) w) with
    | Return _ w' => Return (JObj (<["success" := JBool true]> ∅)) w'
    | Throw e w' => Throw e w'
    end.
Proof. reflexivity. Qed.

End Settings_store.

(** ** The Settings Store *)

Section Settings_store_claims.

Variable settingsPath : string.
Variable JSON_parse : string -> Result JsValue.
Variable JSON_stringify : JsValue -> string.

(** C5, as the code has it. When no profile has ever been saved (the settings
    file does not exist when the application starts), [get-settings] returns
    the initial value of [settings]: address 192.168.1.100, port 8080, and no
    credential field at all. *)
Theorem get_settings_initial_profile
    (f : gmap string string) (d : gset string) (net : AxiosCall -> AxiosReply) :
  f !! settingsPath = None ->
  exists w',
    (createWindow settingsPath JSON_parse;; get_settings) (boot f d net)
    = Return (JObj (<["piAddress" := JStr "192.168.1.100"]>
                    (<["piPort" := JNum 8080]> ∅))) w'
    /\ own_props (settings w') !! "apiToken" = None
    /\ files w' = f.
Proof.
  intros Hnone. unfold bind, createWindow.
  rewrite loadSettings_no_file by exact Hnone.
  eexists. split; [reflexivity | ]. split; reflexivity.
Qed.

(** C9. If the settings file exists but cannot be read, or its text cannot
    be parsed as JSON, [loadSettings] catches the error: it returns without
    throwing, logs the error, and leaves [settings] as it was, so that
    [get-settings] returns the profile held before the call: the initial
    profile when the application starts. *)
Theorem loadSettings_survives_corrupt_file (w : World) :
  is_Some (files w !! settingsPath) ->
  (settingsPath ∈ denied w
   \/ exists text e, files w !! settingsPath = Some text
                     /\ JSON_parse text = Raise e) ->
  exists w',
    loadSettings settingsPath JSON_parse w = Return tt w'
    /\ settings w' = settings w
    /\ get_settings w' = Return (settings w) w'
    /\ (settings w = initial_settings ->
        get_settings w'
        = Return (JObj (<["piAddress" := JStr "192.168.1.100"]>
                        (<["piPort" := JNum 8080]> ∅))) w')
    /\ length (console w') = S (length (console w)).
Proof.
  intros Hfile Hbad.
  destruct (decide (settingsPath ∈ denied w)) as [Hdenied | Hfree].
  - eexists. split; [apply loadSettings_unreadable; assumption | ].
    unfold get_settings. simpl. repeat split; try reflexivity.
    intros ->. reflexivity.
  - destruct Hbad as [Hdenied | (text & e & Htext & Hparse)]; [contradiction | ].
    eexists. split; [eapply loadSettings_unparsable; eassumption | ].
    unfold get_settings. simpl. repeat split; try reflexivity.
    intros ->. reflexivity.
Qed.

(** C8. [save-settings] returns [{ success: true }] for every argument and
    in every world. When the write of the settings file fails, the error is
    caught and logged with [console.error]; the disk is unchanged and the
    result is still [{ success: true }]. *)
Theorem save_settings_always_reports_success (newSettings : JsValue) (w : World) :
  exists w',
    save_settings settingsPath JSON_stringify newSettings w
    = Return (JObj (<["success" := JBool true]> ∅)) w'
    /\ (settingsPath ∈ denied w ->
        files w' = files w
        /\ console w'
           = ("Error saving settings:", EACCES settingsPath) :: console w).
Proof.
  rewrite save_settings_unfold.
  destruct (decide (settingsPath ∈ denied w)) as [Hdenied | Hfree].
  - rewrite saveSettings_refused by exact Hdenied.
    eexists. split; [reflexivity | ]. intros _. split; reflexivity.
  - rewrite saveSettings_written by exact Hfree.
    eexists. split; [reflexivity | ]. intros Hdenied. contradiction.
Qed.

(** C10. [save-settings] merges its argument over the current profile: a
    field that the argument has takes the value the argument gives it, and a
    field that the argument does not have keeps the value it had (saving an
    object that holds an address only leaves the port and the token as they
    were). The merged profile is what [get-settings] returns next. *)
Theorem save_settings_merges
    (newSettings : JsValue) (w : World) (key : string) :
  own_props (settings (world_of
      (save_settings settingsPath JSON_stringify newSettings w))) !! key
  = match own_props newSettings !! key with
    | Some v => Some v
    | None => own_props (settings w) !! key
    end
  /\ value_of ((save_settings settingsPath JSON_stringify newSettings;;
                get_settings) w)
     = Some (JObj (own_props newSettings ∪ own_props (settings w))).
Proof.
  rewrite save_settings_unfold. unfold bind. rewrite save_settings_unfold.
  destruct (saveSettings_returns settingsPath JSON_stringify
              (set_settings (spread (settings w) newSettings) w))
    as (w' & -> & Hsame).
  simpl. rewrite Hsame. simpl. split; [ | reflexivity].
  rewrite lookup_union.
  destruct (own_props newSettings !! key), (own_props (settings w) !! key);
    reflexivity.
Qed.

(** C3, as the code has it. [save-settings] does not look at the port: a
    value of any kind under [piPort] is merged into the profile, and the
    merged profile is what the settings file holds when the write succeeds. *)
Theorem save_settings_stores_any_port
    (newSettings : JsValue) (w : World) (port : JsValue) :
  own_props newSettings !! "piPort" = Some port ->
  settingsPath ∉ denied w ->
  exists w',
    save_settings settingsPath JSON_stringify newSettings w
    = Return (JObj (<["success" := JBool true]> ∅)) w'
    /\ settings w' = spread (settings w) newSettings
    /\ own_props (settings w') !! "piPort" = Some port
    /\ files w' !! settingsPath = Some (JSON_stringify (settings w')).
Proof.
  intros Hport Hfree. rewrite save_settings_unfold.
  rewrite saveSettings_written by exact Hfree.
  eexists. split; [reflexivity | ]. simpl. split; [reflexivity | ]. split.
  - apply lookup_union_Some_l. exact Hport.
  - apply lookup_insert_eq.
Qed.

(** C4, as the code has it. [save-settings] persists the profile with one
    call of [fs.writeFileSync] on the settings file itself: no other file is
    written and nothing is renamed. When the call completes, the file holds
    the whole new text. When it is interrupted, the file holds the part of
    the new text written so far, and every other file is as before. *)
Theorem save_settings_writes_in_place (newSettings : JsValue) (w : World) :
  settingsPath ∉ denied w ->
  exists w',
    save_settings settingsPath JSON_stringify newSettings w
    = Return (JObj (<["success" := JBool true]> ∅)) w'
    /\ fs_calls w'
       = WriteFileSync settingsPath
           (JSON_stringify (spread (settings w) newSettings)) :: fs_calls w
    /\ files w'
       = <[settingsPath := JSON_stringify (spread (settings w) newSettings)]>
           (files w)
    /\ forall f',
         interrupted_write settingsPath
           (JSON_stringify (spread (settings w) newSettings)) (files w) f' ->
         (exists k : nat,
            f' !! settingsPath
            = Some (String.substring 0 k
                      (JSON_stringify (spread (settings w) newSettings))))
         /\ forall other, other <> settingsPath -> f' !! other = files w !! other.
Proof.
  intros Hfree. rewrite save_settings_unfold.
  rewrite saveSettings_written by exact Hfree.
  eexists. split; [reflexivity | ]. simpl. split; [reflexivity | ].
  split; [reflexivity | ].
  intros f' Hcut. inversion Hcut as [k Hk Hf']. split.
  - exists k. apply lookup_insert_eq.
  - intros other Hother. apply lookup_insert_ne. congruence.
Qed.

End Settings_store_claims.

(** *** The Settings Store on concrete worlds *)

Lemma get_settings_initial_profile_witness :
  (∅ : gmap string string) !! settings_json = None
  /\ exists w',
       (createWindow settings_json parse_literal;; get_settings)
         (boot ∅ ∅ offline)
       = Return (JObj (<["piAddress" := JStr "192.168.1.100"]>
                       (<["piPort" := JNum 8080]> ∅))) w'
       /\ own_props (settings w') !! "apiToken" = None
       /\ files w' = ∅.
Proof.
  split; [reflexivity | ].
  apply (get_settings_initial_profile settings_json parse_literal ∅ ∅ offline).
  reflexivity.
Defined.

(** C5, as the specification has it, fails: on a fresh installation the
    profile returned by [get-settings] is not the documented default. Its
    address is 192.168.1.100, not the empty string, and it has no credential
    field. *)
Lemma get_settings_is_not_documented_default :
  exists v,
    value_of ((createWindow settings_json parse_literal;; get_settings)
                (boot ∅ ∅ offline)) = Some v
    /\ v <> documented_default
    /\ own_props v !! "piAddress" = Some (JStr "192.168.1.100")
    /\ own_props documented_default !! "piAddress" = Some (JStr "")
    /\ own_props v !! "apiToken" = None
    /\ own_props documented_default !! "apiToken" = Some (JStr "").
Proof.
  eexists. split; [reflexivity | ]. split.
  - intros Heq.
    apply (f_equal (fun x => own_props x !! "piAddress")) in Heq.
    vm_compute in Heq. discriminate Heq.
  - repeat split; reflexivity.
Qed.

Lemma loadSettings_survives_corrupt_file_witness :
  let w := boot (<[settings_json := "{not json"]> ∅) ∅ offline in
  is_Some (files w !! settings_json)
  /\ (settings_json ∈ denied w
      \/ exists text e, files w !! settings_json = Some text
                        /\ parse_literal text = Raise e)
  /\ exists w',
       loadSettings settings_json parse_literal w = Return tt w'
       /\ settings w' = settings w
       /\ get_settings w' = Return (settings w) w'
       /\ (settings w = initial_settings ->
           get_settings w'
           = Return (JObj (<["piAddress" := JStr "192.168.1.100"]>
                           (<["piPort" := JNum 8080]> ∅))) w')
       /\ length (console w') = S (length (console w)).
Proof.
  assert (Hfile : is_Some (files (boot (<[settings_json := "{not json"]> ∅) ∅ offline)
                           !! settings_json)).
  { exists "{not json". reflexivity. }
  assert (Hbad : settings_json ∈ denied (boot (<[settings_json := "{not json"]> ∅) ∅ offline)
                 \/ exists text e,
                      files (boot (<[settings_json := "{not json"]> ∅) ∅ offline)
                        !! settings_json = Some text
                      /\ parse_literal text = Raise e).
  { right. exists "{not json", (SyntaxError "{not json"). split; reflexivity. }
  split; [exact Hfile | ]. split; [exact Hbad | ].
  exact (loadSettings_survives_corrupt_file settings_json parse_literal _ Hfile Hbad).
Defined.

Lemma loadSettings_parsed_witness :
  let w := boot (<[settings_json := "null"]> ∅) ∅ offline in
  files w !! settings_json = Some "null"
  /\ (settings_json ∉ denied w)
  /\ parse_literal "null" = Ok JNull
  /\ loadSettings settings_json parse_literal w
     = Return tt
         (set_settings JNull
            (log_fs (ReadFileSync settings_json)
               (log_fs (ExistsSync settings_json) w))).
Proof.
  assert (Hfree : settings_json
                  ∉ denied (boot (<[settings_json := "null"]> ∅) ∅ offline)).
  { apply not_elem_of_empty. }
  split; [reflexivity | ]. split; [exact Hfree | ]. split; [reflexivity | ].
  exact (loadSettings_parsed settings_json parse_literal
           (boot (<[settings_json := "null"]> ∅) ∅ offline) "null" JNull
           eq_refl Hfree eq_refl).
Defined.

Lemma save_settings_always_reports_success_witness :
  let w := boot ∅ {[settings_json]} offline in
  let newSettings := Renderer.newSettings "192.168.1.50" "8080" "T1" in
  settings_json ∈ denied w
  /\ exists w',
       save_settings settings_json print_json newSettings w
       = Return (JObj (<["success" := JBool true]> ∅)) w'
       /\ files w' = files w
       /\ console w' = [("Error saving settings:", EACCES settings_json)].
Proof.
  assert (Hdenied : settings_json ∈ denied (boot ∅ {[settings_json]} offline)).
  { change (settings_json ∈ ({[settings_json]} : gset string)).
    apply elem_of_singleton_2. reflexivity. }
  split; [exact Hdenied | ].
  destruct (save_settings_always_reports_success settings_json print_json
              (Renderer.newSettings "192.168.1.50" "8080" "T1")
              (boot ∅ {[settings_json]} offline)) as (w' & Hrun & Hlogged).
  exists w'. split; [exact Hrun | ]. exact (Hlogged Hdenied).
Defined.

(** C10 at the example of the claim: an object with an address only is
    saved over a profile that holds address, port and token. *)
Lemma save_settings_merges_example :
  let w := configured "192.168.1.100" "8080" "T1" offline in
  let newSettings := JObj (<["piAddress" := JStr "10.0.0.5"]> ∅) in
  let after key :=
    own_props (settings (world_of
      (save_settings settings_json print_json newSettings w))) !! key in
  after "piAddress" = Some (JStr "10.0.0.5")
  /\ after "piPort" = Some (JStr "8080")
  /\ after "apiToken" = Some (JStr "T1").
Proof.
  pose proof (save_settings_merges settings_json print_json
                (JObj (<["piAddress" := JStr "10.0.0.5"]> ∅))
                (configured "192.168.1.100" "8080" "T1" offline)) as Hmerge.
  split; [ | split].
  - exact (proj1 (Hmerge "piAddress")).
  - exact (proj1 (Hmerge "piPort")).
  - exact (proj1 (Hmerge "apiToken")).
Defined.

(** Saving from the dialog that has no token box: the stored token stays. *)
Example save_without_token_box :
  let w := configured "192.168.1.100" "8080" "T1" offline in
  let w' := world_of (save_settings settings_json print_json
                        (Renderer.newSettings_without_token "10.0.0.5" "9090") w) in
  own_props (settings w') !! "piAddress" = Some (JStr "10.0.0.5")
  /\ own_props (settings w') !! "piPort" = Some (JStr "9090")
  /\ own_props (settings w') !! "apiToken" = Some (JStr "T1").
Proof. repeat split; vm_compute; reflexivity. Qed.

(** Saving an address alone: the port and the token stay, the address
    changes. *)
Example save_address_only :
  let w := configured "192.168.1.100" "8080" "T1" offline in
  let w' := world_of (save_settings settings_json print_json
                        (JObj (<["piAddress" := JStr "10.0.0.5"]> ∅)) w) in
  own_props (settings w') !! "piAddress" = Some (JStr "10.0.0.5")
  /\ own_props (settings w') !! "piPort" = Some (JStr "8080")
  /\ own_props (settings w') !! "apiToken" = Some (JStr "T1").
Proof. repeat split; vm_compute; reflexivity. Qed.

Lemma save_settings_stores_any_port_witness :
  let w := boot ∅ ∅ offline in
  let newSettings := Renderer.newSettings "192.168.1.100" "70000" "" in
  own_props newSettings !! "piPort" = Some (JStr "70000")
  /\ (settings_json ∉ denied w)
  /\ exists w',
       save_settings settings_json print_json newSettings w
       = Return (JObj (<["success" := JBool true]> ∅)) w'
       /\ settings w' = spread (settings w) newSettings
       /\ own_props (settings w') !! "piPort" = Some (JStr "70000")
       /\ files w' !! settings_json = Some (print_json (settings w')).
Proof.
  assert (Hfree : settings_json ∉ denied (boot ∅ ∅ offline)).
  { apply not_elem_of_empty. }
  split; [reflexivity | ]. split; [exact Hfree | ].
  exact (save_settings_stores_any_port settings_json print_json
           (Renderer.newSettings "192.168.1.100" "70000" "")
           (boot ∅ ∅ offline) (JStr "70000") eq_refl Hfree).
Defined.

(** C3, as the specification has it, fails: the operator types 70000 in the
    port box and saves. The port handed to [save-settings] is the string
    70000, which is no integer between 1 and 65535, and the profile with that
    port is what the settings file holds afterwards. *)
Lemma save_settings_persists_invalid_port :
  let newSettings := Renderer.newSettings "192.168.1.100" "70000" "" in
  let w' := world_of (save_settings settings_json print_json newSettings
                        (boot ∅ ∅ offline)) in
  own_props newSettings !! "piPort" = Some (JStr "70000")
  /\ is_valid_port (JStr "70000") = false
  /\ files (boot ∅ ∅ offline) !! settings_json = None
  /\ files w' !! settings_json = Some (print_json (settings w'))
  /\ own_props (settings w') !! "piPort" = Some (JStr "70000").
Proof. repeat split; vm_compute; reflexivity. Qed.

Lemma save_settings_writes_in_place_witness :
  let w := configured "192.168.1.100" "8080" "T1" offline in
  let newSettings := Renderer.newSettings "192.168.1.50" "8080" "T1" in
  let text := print_json (spread (settings w) newSettings) in
  (settings_json ∉ denied w)
  /\ exists w',
       save_settings settings_json print_json newSettings w
       = Return (JObj (<["success" := JBool true]> ∅)) w'
       /\ fs_calls w' = WriteFileSync settings_json text :: fs_calls w
       /\ files w' = <[settings_json := text]> (files w)
       /\ forall f',
            interrupted_write settings_json text (files w) f' ->
            (exists k : nat,
               f' !! settings_json = Some (String.substring 0 k text))
            /\ forall other,
                 other <> settings_json -> f' !! other = files w !! other.
Proof.
  assert (Hfree : settings_json
                  ∉ denied (configured "192.168.1.100" "8080" "T1" offline)).
  { apply not_elem_of_empty. }
  split; [exact Hfree | ].
  exact (save_settings_writes_in_place settings_json print_json
           (Renderer.newSettings "192.168.1.50" "8080" "T1")
           (configured "192.168.1.100" "8080" "T1" offline) Hfree).
Defined.

(** C4, as the specification has it, fails: the save writes the settings
    file itself, no temporary file, and a save interrupted right after the
    file was opened leaves it empty: neither the profile saved before nor
    the new one. *)
Lemma save_settings_interrupted_is_torn :
  let w := configured "192.168.1.100" "8080" "T1" offline in
  let newSettings := Renderer.newSettings "192.168.1.50" "8080" "T1" in
  let text := print_json (spread (settings w) newSettings) in
  fs_calls (world_of (save_settings settings_json print_json newSettings w))
  = WriteFileSync settings_json text :: fs_calls w
  /\ exists f',
       interrupted_write settings_json text (files w) f'
       /\ f' !! settings_json = Some ""
       /\ f' !! settings_json <> files w !! settings_json
       /\ f' !! settings_json <> Some text.
Proof.
  split; [vm_compute; reflexivity | ].
  eexists. split; [apply (written_up_to _ _ _ 0%nat); apply Nat.le_0_l | ].
  rewrite lookup_insert_eq. split; [reflexivity | ].
  split; vm_compute; discriminate.
Qed.

(** ** The Command Client *)

(** The call [play-announcement] makes for a url and an audio identifier. *)
Local Abbreviation play_call url audioFile :=
  (mkCall POST url (JObj (<["audio" := audioFile]> ∅))
          (<["timeout" := JNum 5000]> ∅)).

Lemma play_announcement_not_dispatched (audioFile : JsValue) (w : World) (e : JsError) :
  play_url (settings w) = Raise e ->
  play_announcement audioFile w = Return (failed e) w.
Proof.
  intros Hurl. unfold_effects. rewrite Hurl. reflexivity.
Qed.

Lemma play_announcement_dispatched (audioFile : JsValue) (w : World) (url : string) :
  play_url (settings w) = Ok url ->
  play_announcement audioFile w
  = match network w (play_call url audioFile) with
    | Resolves _ => Return delivered (log_sent (play_call url audioFile) w)
    | Rejects e => Return (failed e) (log_sent (play_call url audioFile) w)
    end.
Proof.
  intros Hurl. unfold_effects. rewrite Hurl. simpl.
  destruct (network w _); reflexivity.
Qed.

Lemma play_url_shape (s : JsValue) (url : string) :
  play_url s = Ok url ->
  exists address host piPort port,
    get_prop s "piAddress" = Ok address /\ to_string address = Ok host
    /\ get_prop s "piPort" = Ok piPort /\ to_string piPort = Ok port
    /\ url = "http://" +:+ host +:+ ":" +:+ port +:+ "/play".
Proof.
  unfold play_url, and_then. intros Hurl.
  destruct (get_prop s "piAddress") as [address | ] eqn:Ha; [ | discriminate].
  destruct (to_string address) as [host | ] eqn:Hh; [ | discriminate].
  destruct (get_prop s "piPort") as [piPort | ] eqn:Hp; [ | discriminate].
  destruct (to_string piPort) as [port | ] eqn:Hs; [ | discriminate].
  exists address, host, piPort, port. repeat split; congruence.
Qed.

Lemma play_url_configured (props : gmap string JsValue)
    (address : string) (piPort : JsValue) (port : string) :
  props !! "piAddress" = Some (JStr address) ->
  props !! "piPort" = Some piPort ->
  to_string piPort = Ok port ->
  play_url (JObj props) = Ok ("http://" +:+ address +:+ ":" +:+ port +:+ "/play").
Proof.
  intros Ha Hp Hs. unfold play_url, and_then, get_prop, own_props.
  rewrite Ha. simpl. rewrite Hp. simpl. rewrite Hs. reflexivity.
Qed.

Lemma cons_neq_self {A : Type} (x : A) (l : list A) : l <> x :: l.
Proof.
  intros Heq. apply (f_equal length) in Heq. simpl in Heq. lia.
Qed.

(** What a run of [play-announcement] sends, and how it ends. *)
Lemma play_announcement_sent_call (audioFile : JsValue) (w : World) (c : AxiosCall) :
  sent (world_of (play_announcement audioFile w)) = c :: sent w ->
  exists url,
    play_url (settings w) = Ok url
    /\ c = play_call url audioFile
    /\ play_announcement audioFile w
       = match network w c with
         | Resolves _ => Return delivered (log_sent c w)
         | Rejects e => Return (failed e) (log_sent c w)
         end.
Proof.
  intros Hsent. destruct (play_url (settings w)) as [url | e] eqn:Hurl.
  - exists url. split; [reflexivity | ].
    pose proof (play_announcement_dispatched audioFile w url Hurl) as Hrun.
    assert (Hc : c = play_call url audioFile).
    { rewrite Hrun in Hsent.
      destruct (network w (play_call url audioFile)); simpl in Hsent; congruence. }
    split; [exact Hc | ]. rewrite Hc. exact Hrun.
  - rewrite (play_announcement_not_dispatched audioFile w e Hurl) in Hsent.
    simpl in Hsent. exfalso. exact (cons_neq_self c (sent w) Hsent).
Qed.




(** C7. Every request [play-announcement] sends is a POST; its url is
    http://, the configured address, a colon, the configured port and /play;
    its body is the object holding the audio identifier under [audio]. A
    run sends one such request or, when the url cannot be built, none. With
    an address that is a string and a port that prints as [port], the request
    is sent, to that address and port. *)
Theorem play_announcement_posts_to_play (audioFile : JsValue) (w : World) :
  (sent (world_of (play_announcement audioFile w)) = sent w
   \/ exists address host piPort port,
        get_prop (settings w) "piAddress" = Ok address
        /\ to_string address = Ok host
        /\ get_prop (settings w) "piPort" = Ok piPort
        /\ to_string piPort = Ok port
        /\ sent (world_of (play_announcement audioFile w))
           = mkCall POST ("http://" +:+ host +:+ ":" +:+ port +:+ "/play")
               (JObj (<["audio" := audioFile]> ∅))
               (<["timeout" := JNum 5000]> ∅) :: sent w)
  /\ forall props address piPort port,
       settings w = JObj props ->
       props !! "piAddress" = Some (JStr address) ->
       props !! "piPort" = Some piPort ->
       to_string piPort = Ok port ->
       sent (world_of (play_announcement audioFile w))
       = mkCall POST ("http://" +:+ address +:+ ":" +:+ port +:+ "/play")
           (JObj (<["audio" := audioFile]> ∅))
           (<["timeout" := JNum 5000]> ∅) :: sent w.
Proof.
  split.
  - destruct (play_url (settings w)) as [url | e] eqn:Hurl.
    + right. destruct (play_url_shape _ _ Hurl)
        as (address & host & piPort & port & Ha & Hh & Hp & Hs & ->).
      exists address, host, piPort, port. repeat (split; [assumption | ]).
      rewrite (play_announcement_dispatched audioFile w _ Hurl).
      destruct (network w _); reflexivity.
    + left. rewrite (play_announcement_not_dispatched audioFile w e Hurl).
      reflexivity.
  - intros props address piPort port Hs Ha Hp Hport.
    assert (Hurl : play_url (settings w)
                   = Ok ("http://" +:+ address +:+ ":" +:+ port +:+ "/play")).
    { rewrite Hs. apply play_url_configured with piPort; assumption. }
    rewrite (play_announcement_dispatched audioFile w _ Hurl).
    destruct (network w _); reflexivity.
Qed.



(** X1. [play-announcement] never throws: every run returns a result object,
    the one for a success or one for a failure. *)
Lemma play_announcement_returns (audioFile : JsValue) (w : World) :
  exists v w',
    play_announcement audioFile w = Return v w'
    /\ (v = delivered \/ exists e, v = failed e).
Proof.
  destruct (play_url (settings w)) as [url | e] eqn:Hurl.
  - rewrite (play_announcement_dispatched audioFile w url Hurl).
    destruct (network w _) as [r | e]; eauto 6.
  - rewrite (play_announcement_not_dispatched audioFile w e Hurl). eauto 6.
Qed.

(** X3. A call that rejects, whatever the reason (a refused connection, a host
    that does not resolve, the timeout of 5000 ms that the request carries),
    ends the run with the failure result that holds the message of the
    error. *)
Lemma play_announcement_rejected (audioFile : JsValue) (w : World)
    (c : AxiosCall) (e : JsError) :
  sent (world_of (play_announcement audioFile w)) = c :: sent w ->
  network w c = Rejects e ->
  value_of (play_announcement audioFile w) = Some (failed e)
  /\ ac_config c !! "timeout" = Some (JNum 5000).
Proof.
  intros Hsent Hnet.
  destruct (play_announcement_sent_call _ _ _ Hsent) as (url & _ & Hc & ->).
  rewrite Hnet. split; [reflexivity | ]. rewrite Hc. reflexivity.
Qed.

(** The options object of every request is [{ timeout: 5000 }]: it has no
    [headers], so the request carries no [Authorization] header. *)
Lemma play_announcement_config (audioFile : JsValue) (w : World) (c : AxiosCall) :
  sent (world_of (play_announcement audioFile w)) = c :: sent w ->
  ac_config c = <["timeout" := JNum 5000]> ∅
  /\ ac_config c !! "headers" = None.
Proof.
  intros Hsent.
  destruct (play_announcement_sent_call _ _ _ Hsent) as (url & _ & -> & _).
  split; reflexivity.
Qed.

(** *** The Command Client on concrete worlds *)

(** C1 on the code. The operator saved the token T1 in the settings dialog
    and plays bell.mp3: the profile holds the token, the request goes out,
    and its options hold the timeout only. There is no [headers] entry, so
    no [Authorization: Bearer T1] header is sent. *)
Lemma play_announcement_sends_no_credential :
  let w := configured "192.168.1.100" "8080" "T1" playing in
  let w' := world_of (play_announcement (JStr "bell.mp3") w) in
  own_props (settings w) !! "apiToken" = Some (JStr "T1")
  /\ sent w'
     = [mkCall POST "http://192.168.1.100:8080/play"
          (JObj (<["audio" := JStr "bell.mp3"]> ∅))
          (<["timeout" := JNum 5000]> ∅)]
  /\ (forall c, c ∈ sent w' ->
        ac_config c !! "headers" = None
        /\ ac_config c !! "headers" <> Some (bearer "T1")).
Proof.
  split; [vm_compute; reflexivity | ].
  split; [vm_compute; reflexivity | ].
  intros c Hc.
  assert (Hsent : sent (world_of (play_announcement (JStr "bell.mp3")
                    (configured "192.168.1.100" "8080" "T1" playing)))
                  = [mkCall POST "http://192.168.1.100:8080/play"
                       (JObj (<["audio" := JStr "bell.mp3"]> ∅))
                       (<["timeout" := JNum 5000]> ∅)]).
  { vm_compute. reflexivity. }
  rewrite Hsent in Hc. apply list_elem_of_singleton in Hc. subst c.
  split; [reflexivity | discriminate].
Qed.

Lemma play_announcement_posts_to_play_witness :
  let w := configured "192.168.1.100" "8080" "T1" playing in
  settings w = JObj (own_props (settings w))
  /\ own_props (settings w) !! "piAddress" = Some (JStr "192.168.1.100")
  /\ own_props (settings w) !! "piPort" = Some (JStr "8080")
  /\ to_string (JStr "8080") = Ok "8080"
  /\ sent (world_of (play_announcement (JStr "bell.mp3") w))
     = mkCall POST "http://192.168.1.100:8080/play"
         (JObj (<["audio" := JStr "bell.mp3"]> ∅))
         (<["timeout" := JNum 5000]> ∅) :: sent w.
Proof.
  set (w := configured "192.168.1.100" "8080" "T1" playing).
  assert (Hs : settings w = JObj (own_props (settings w)))
    by (vm_compute; reflexivity).
  assert (Ha : own_props (settings w) !! "piAddress" = Some (JStr "192.168.1.100"))
    by (vm_compute; reflexivity).
  assert (Hp : own_props (settings w) !! "piPort" = Some (JStr "8080"))
    by (vm_compute; reflexivity).
  repeat (split; [assumption || reflexivity | ]).
  exact (proj2 (play_announcement_posts_to_play (JStr "bell.mp3") w)
           (own_props (settings w)) "192.168.1.100" (JStr "8080") "8080"
           Hs Ha Hp eq_refl).
Defined.

(** With a settings file that holds the text null, [settings] is [null]
    after [loadSettings]; reading [settings.piAddress] then throws inside the
    [try] block, and the run ends with a failure result and sends nothing. *)
Example play_announcement_without_profile :
  let w := set_settings JNull (boot ∅ ∅ playing) in
  play_announcement (JStr "bell.mp3") w
  = Return (failed (TypeError "Cannot read properties of null (reading 'piAddress')")) w.
Proof. reflexivity. Qed.

Lemma play_announcement_rejected_witness :
  let w := configured "192.168.1.100" "8080" "T1" offline in
  let c := mkCall POST "http://192.168.1.100:8080/play"
             (JObj (<["audio" := JStr "bell.mp3"]> ∅))
             (<["timeout" := JNum 5000]> ∅) in
  sent (world_of (play_announcement (JStr "bell.mp3") w)) = c :: sent w
  /\ network w c = Rejects (refused_error "192.168.1.100" "8080")
  /\ value_of (play_announcement (JStr "bell.mp3") w)
     = Some (failed (refused_error "192.168.1.100" "8080"))
  /\ ac_config c !! "timeout" = Some (JNum 5000).
Proof.
  set (w := configured "192.168.1.100" "8080" "T1" offline).
  assert (Hs : sent (world_of (play_announcement (JStr "bell.mp3") w))
               = mkCall POST "http://192.168.1.100:8080/play"
                   (JObj (<["audio" := JStr "bell.mp3"]> ∅))
                   (<["timeout" := JNum 5000]> ∅) :: sent w)
    by (vm_compute; reflexivity).
  split; [exact Hs | ]. split; [reflexivity | ].
  exact (play_announcement_rejected (JStr "bell.mp3") w _
           (refused_error "192.168.1.100" "8080") Hs eq_refl).
Defined.


(** ** The Settings Store and the Command Client together *)

(** A helper with the statement of the parsed case of [loadSettings], for
    the proofs that compose it. *)
Lemma loadSettings_stores_parsed (settingsPath : string)
    (JSON_parse : string -> Result JsValue) (w : World) (text : string) (v : JsValue) :
  files w !! settingsPath = Some text ->
  settingsPath ∉ denied w ->
  JSON_parse text = Ok v ->
  loadSettings settingsPath JSON_parse w
  = Return tt
      (set_settings v
         (log_fs (ReadFileSync settingsPath)
            (log_fs (ExistsSync settingsPath) w))).
Proof.
  intros Htext Hfree Hparse. unfold_effects. rewrite Htext. simpl.
  destruct (decide (settingsPath ∈ denied w)) as [Hyes | _]; [contradiction | ].
  rewrite Htext, Hparse. reflexivity.
Qed.

Section Main_process.

Variable settingsPath : string.
Variable JSON_parse : string -> Result JsValue.
Variable JSON_stringify : JsValue -> string.

(** [save-settings] in one equation: the profile in memory is the merged one
    whether or not the write succeeds. *)
Lemma save_settings_settings (newSettings : JsValue) (w : World) :
  settings (world_of (save_settings settingsPath JSON_stringify newSettings w))
  = spread (settings w) newSettings.
Proof.
  rewrite save_settings_unfold.
  destruct (saveSettings_returns settingsPath JSON_stringify
              (set_settings (spread (settings w) newSettings) w))
    as (w' & -> & Hsame).
  simpl. rewrite Hsame. reflexivity.
Qed.

Lemma save_settings_denied (newSettings : JsValue) (w : World) :
  denied (world_of (save_settings settingsPath JSON_stringify newSettings w))
  = denied w.
Proof.
  rewrite save_settings_unfold.
  destruct (decide (settingsPath ∈ denied w)) as [Hdenied | Hfree].
  - rewrite saveSettings_refused by exact Hdenied. reflexivity.
  - rewrite saveSettings_written by exact Hfree. reflexivity.
Qed.

(** X4. A profile that was saved survives a restart: when the write
    succeeds and the platform parses what it printed, the application
    started on the disk the save left behind loads the merged profile, and
    [get-settings] returns it. *)
Theorem saved_profile_survives_restart
    (newSettings : JsValue) (w : World) (net : AxiosCall -> AxiosReply) :
  settingsPath ∉ denied w ->
  JSON_parse (JSON_stringify (spread (settings w) newSettings))
  = Ok (spread (settings w) newSettings) ->
  exists w2,
    (createWindow settingsPath JSON_parse;; get_settings)
      (boot (files (world_of (save_settings settingsPath JSON_stringify newSettings w)))
            (denied w) net)
    = Return (spread (settings w) newSettings) w2.
Proof.
  intros Hfree Hparse. rewrite save_settings_unfold.
  rewrite saveSettings_written by exact Hfree. simpl.
  unfold bind, createWindow.
  erewrite loadSettings_stores_parsed;
    [ | simpl; apply lookup_insert_eq | exact Hfree | exact Hparse ].
  eexists. reflexivity.
Qed.

(** X5. Two saves in a row compose as one merge: for every field the value
    of the second argument wins, then the value of the first, then the value
    held before; saving the same argument twice changes nothing more than
    saving it once. *)
Theorem save_settings_twice (first second : JsValue) (w : World) (key : string) :
  let w1 := world_of (save_settings settingsPath JSON_stringify first w) in
  let w2 := world_of (save_settings settingsPath JSON_stringify second w1) in
  own_props (settings w2) !! key
  = match own_props second !! key with
    | Some v => Some v
    | None =>
        match own_props first !! key with
        | Some v => Some v
        | None => own_props (settings w) !! key
        end
    end
  /\ (first = second -> settings w2 = settings w1).
Proof.
  intros w1 w2. subst w1 w2. rewrite !save_settings_settings. simpl. split.
  - rewrite !lookup_union.
    destruct (own_props second !! key), (own_props first !! key),
      (own_props (settings w) !! key); reflexivity.
  - intros ->. unfold spread. f_equal. simpl.
    rewrite (assoc_L (∪)). rewrite (idemp_L (∪)). reflexivity.
Qed.

(** X6. A save whose write is refused when the settings file is opened
    ([EACCES], the file is not touched) still replaces the profile in
    memory: [get-settings] returns the merged profile while the disk holds
    what it held before, so the two differ until a later write succeeds. *)
Theorem failed_save_changes_memory_only (newSettings : JsValue) (w : World) :
  settingsPath ∈ denied w ->
  exists w',
    (save_settings settingsPath JSON_stringify newSettings;; get_settings) w
    = Return (spread (settings w) newSettings) w'
    /\ files w' = files w.
Proof.
  intros Hdenied. unfold bind. rewrite save_settings_unfold.
  rewrite saveSettings_refused by exact Hdenied.
  eexists. split; reflexivity.
Qed.

(** X8. In every world [loadSettings] returns without throwing, consults
    only the settings file (one [existsSync], then at most one
    [readFileSync]), never writes and never sends; [settings] is either
    untouched or the parsed text of the settings file. *)
Theorem loadSettings_reads_only (w : World) :
  exists w',
    loadSettings settingsPath JSON_parse w = Return tt w'
    /\ files w' = files w
    /\ sent w' = sent w
    /\ (fs_calls w' = ExistsSync settingsPath :: fs_calls w
        \/ fs_calls w'
           = ReadFileSync settingsPath :: ExistsSync settingsPath :: fs_calls w)
    /\ (settings w' = settings w
        \/ exists text, files w !! settingsPath = Some text
                        /\ JSON_parse text = Ok (settings w')).
Proof.
  destruct (files w !! settingsPath) as [text | ] eqn:Htext.
  - destruct (decide (settingsPath ∈ denied w)) as [Hdenied | Hfree].
    + eexists. split; [apply loadSettings_unreadable; eauto | ].
      simpl. auto.
    + destruct (JSON_parse text) as [v | e] eqn:Hparse.
      * eexists. split; [eapply loadSettings_stores_parsed; eassumption | ].
        simpl. repeat split; eauto.
      * eexists. split; [eapply loadSettings_unparsable; eassumption | ].
        simpl. auto.
  - eexists. split; [apply loadSettings_no_file; assumption | ].
    simpl. auto.
Qed.

(** X9. Whether or not the write succeeds, [save-settings] makes exactly one
    call to the file system, the write of the settings file; it reads
    nothing, sends nothing, and leaves every other file as it was. *)
Theorem save_settings_touches_one_file (newSettings : JsValue) (w : World) :
  let w' := world_of (save_settings settingsPath JSON_stringify newSettings w) in
  fs_calls w'
  = WriteFileSync settingsPath
      (JSON_stringify (spread (settings w) newSettings)) :: fs_calls w
  /\ sent w' = sent w
  /\ forall other, other <> settingsPath -> files w' !! other = files w !! other.
Proof.
  intros w'. subst w'. rewrite save_settings_unfold.
  destruct (decide (settingsPath ∈ denied w)) as [Hdenied | Hfree].
  - rewrite saveSettings_refused by exact Hdenied. simpl. auto.
  - rewrite saveSettings_written by exact Hfree. simpl.
    repeat split. intros other Hother. apply lookup_insert_ne. congruence.
Qed.

(** X12. What was saved is what [get-settings] returns next: every field of
    the argument is found in the profile with the value the argument gave
    it, in every world. *)
Theorem save_then_get_settings
    (newSettings : JsValue) (w : World) (key : string) (v : JsValue) :
  own_props newSettings !! key = Some v ->
  exists profile w',
    (save_settings settingsPath JSON_stringify newSettings;; get_settings) w
    = Return profile w'
    /\ own_props profile !! key = Some v.
Proof.
  intros Hkey. unfold bind. rewrite save_settings_unfold.
  destruct (saveSettings_returns settingsPath JSON_stringify
              (set_settings (spread (settings w) newSettings) w))
    as (w' & -> & Hsame).
  exists (settings w'), w'. split; [reflexivity | ].
  rewrite Hsame. simpl. apply lookup_union_Some_l. exact Hkey.
Qed.

(** X13. Where the operator pointed the dialog is where the request goes:
    after a save of the texts of the address and port boxes, in any world
    and whether or not the write succeeded, [play-announcement] sends one
    request, to http://, the address text, a colon, the port text and
    /play. *)
Theorem play_after_dialog_save
    (pi_address pi_port api_token : string) (audioFile : JsValue) (w : World) :
  let w1 := world_of (save_settings settingsPath JSON_stringify
                        (Renderer.newSettings pi_address pi_port api_token) w) in
  sent (world_of (play_announcement audioFile w1))
  = mkCall POST ("http://" +:+ pi_address +:+ ":" +:+ pi_port +:+ "/play")
      (JObj (<["audio" := audioFile]> ∅))
      (<["timeout" := JNum 5000]> ∅) :: sent w1.
Proof.
  intros w1.
  assert (Hurl : play_url (settings w1)
                 = Ok ("http://" +:+ pi_address +:+ ":" +:+ pi_port +:+ "/play")).
  { subst w1. rewrite save_settings_settings. unfold spread.
    apply play_url_configured with (JStr pi_port).
    - apply lookup_union_Some_l. reflexivity.
    - apply lookup_union_Some_l. reflexivity.
    - reflexivity. }
  rewrite (play_announcement_dispatched audioFile w1 _ Hurl).
  destruct (network w1 _); reflexivity.
Qed.

End Main_process.

(** X7. [play-announcement] sends at most one request per run, also when
    the call fails: nothing is retried. It leaves the profile, the disk and
    the console as they were and makes no call to the file system. *)
Theorem play_announcement_sends_once (audioFile : JsValue) (w : World) :
  let w' := world_of (play_announcement audioFile w) in
  (sent w' = sent w \/ exists c, sent w' = c :: sent w)
  /\ settings w' = settings w
  /\ files w' = files w
  /\ console w' = console w
  /\ fs_calls w' = fs_calls w.
Proof.
  intros w'. subst w'.
  destruct (play_url (settings w)) as [url | e] eqn:Hurl.
  - rewrite (play_announcement_dispatched audioFile w url Hurl).
    destruct (network w _); simpl; eauto 10.
  - rewrite (play_announcement_not_dispatched audioFile w e Hurl).
    simpl. auto.
Qed.

(** X10. A profile object without an address still yields a url: the missing
    address is spelled undefined, and the request is sent to that host. *)
Theorem play_announcement_without_address
    (audioFile : JsValue) (w : World) (props : gmap string JsValue)
    (piPort : JsValue) (port : string) :
  settings w = JObj props ->
  props !! "piAddress" = None ->
  props !! "piPort" = Some piPort ->
  to_string piPort = Ok port ->
  sent (world_of (play_announcement audioFile w))
  = mkCall POST ("http://undefined:" +:+ port +:+ "/play")
      (JObj (<["audio" := audioFile]> ∅))
      (<["timeout" := JNum 5000]> ∅) :: sent w.
Proof.
  intros Hs Ha Hp Hport.
  assert (Hurl : play_url (settings w) = Ok ("http://undefined:" +:+ port +:+ "/play")).
  { rewrite Hs. unfold play_url, and_then, get_prop, own_props.
    rewrite Ha, Hp. simpl. rewrite Hport. reflexivity. }
  rewrite (play_announcement_dispatched audioFile w _ Hurl).
  destruct (network w _); reflexivity.
Qed.

(** X11. A settings file whose text parses to [null] disables the client:
    [loadSettings] stores [null] in [settings], and from then on every run of
    [play-announcement] ends with the failure result of a [TypeError] and
    sends nothing. *)
Theorem null_profile_blocks_dispatch
    (settingsPath : string) (JSON_parse : string -> Result JsValue)
    (text : string) (audioFile : JsValue) (w : World) :
  files w !! settingsPath = Some text ->
  settingsPath ∉ denied w ->
  JSON_parse text = Ok JNull ->
  exists w1 w2,
    loadSettings settingsPath JSON_parse w = Return tt w1
    /\ play_announcement audioFile w1
       = Return (failed (TypeError
                   "Cannot read properties of null (reading 'piAddress')")) w2
    /\ sent w2 = sent w.
Proof.
  intros Htext Hfree Hparse.
  eexists. eexists. split; [eapply loadSettings_stores_parsed; eassumption | ].
  split; reflexivity.
Qed.

(** ** The page *)

Ltac unfold_view :=
  unfold View.Snackbar.loadSettings, View.Toast.loadSettings,
    View.Snackbar.showSnackbar, View.Toast.showToast,
    View.Snackbar.announcement_done, View.Toast.announcement_done,
    View.Snackbar.save_done, View.Toast.save_done,
    View.and_next, View.compute, View.setTimeout, View.clearTimeout.

Lemma box_text_of_string (props : gmap string JsValue) (key fallback text : string) :
  props !! key = Some (JStr text) ->
  View.box_text (JObj props) key fallback
  = Ok (if String.eqb text "" then fallback else text).
Proof.
  intros Hkey. unfold View.box_text, and_then, get_prop, own_props.
  rewrite Hkey. simpl. unfold View.or_else, View.truthy.
  destruct (String.eqb text ""); reflexivity.
Qed.

Lemma number_text_safe (n : Z) :
  - max_safe_integer <= n <= max_safe_integer -> number_text n = pretty n.
Proof.
  intros Hsafe. unfold number_text.
  destruct (Z.abs n <=? max_safe_integer) eqn:Hle; [reflexivity | ].
  apply Z.leb_gt in Hle. lia.
Qed.

Lemma box_text_of_number (props : gmap string JsValue) (key fallback : string) (n : Z) :
  props !! key = Some (JNum n) ->
  View.box_text (JObj props) key fallback
  = Ok (if n =? 0 then fallback else number_text n).
Proof.
  intros Hkey. unfold View.box_text, and_then, get_prop, own_props.
  rewrite Hkey. simpl. unfold View.or_else, View.truthy.
  destruct (n =? 0); reflexivity.
Qed.

Lemma box_text_missing (props : gmap string JsValue) (key fallback : string) :
  props !! key = None ->
  View.box_text (JObj props) key fallback = Ok fallback.
Proof.
  intros Hkey. unfold View.box_text, and_then, get_prop, own_props.
  rewrite Hkey. reflexivity.
Qed.

(** X14. The dialog fills its boxes from the profile with fallbacks: an
    address that is a string shows as it is; a port that is a safe integer
    (at most 9007199254740991 in absolute value, so that the number prints
    as its decimal digits) shows in decimal, except that port 0 shows as
    8080; and a profile without a token shows an empty token box. With the
    initial profile the boxes read 192.168.1.100, 8080 and nothing. *)
Theorem dialog_shows_profile_with_fallbacks
    (props : gmap string JsValue) (address : string) (port : Z) (p : View.Page) :
  props !! "piAddress" = Some (JStr address) ->
  props !! "piPort" = Some (JNum port) ->
  props !! "apiToken" = None ->
  - 9007199254740991 <= port <= 9007199254740991 ->
  exists p',
    View.Toast.loadSettings (JObj props) p = View.Done tt p'
    /\ View.boxes p'
       = View.mkBoxes address (if port =? 0 then "8080" else pretty port) ""
    /\ View.currentSettings p' = JObj props.
Proof.
  intros Ha Hp Ht Hsafe. unfold_view.
  rewrite (box_text_of_string props "piAddress" "" address Ha).
  rewrite (box_text_of_number props "piPort" "8080" port Hp).
  rewrite (box_text_missing props "apiToken" "" Ht).
  rewrite (number_text_safe port Hsafe).
  eexists. split; [reflexivity | ]. simpl. split; [ | reflexivity].
  destruct (String.eqb address "") eqn:Hempty; [ | reflexivity].
  apply String.eqb_eq in Hempty. subst address. reflexivity.
Qed.

Lemma filter_ne_singleton (id : positive) :
  filter (fun t : positive => t <> id) [id] = [].
Proof.
  rewrite filter_cons. destruct (decide (id <> id)) as [Hne | _]; [congruence | ].
  reflexivity.
Qed.

Lemma showSnackbar_one_timer (message : JsValue) (type : string) (p : View.Page) :
  one_timer p ->
  one_timer (View.page_of (View.Snackbar.showSnackbar message type p)).
Proof.
  intros Hinv.
  assert (Hcleared :
    forall q, View.pending (View.clock q) = [] ->
      one_timer (View.page_of
        (View.and_next
           (fun p0 => View.Done tt
              (if String.eqb type "success" then
                 View.set_note (View.mkNote "check_circle"
                   (View.note_message (View.note p0))
                   (View.note_class (View.note p0))
                   (View.note_shown (View.note p0))) p0
               else if String.eqb type "error" then
                 View.set_note (View.mkNote "error"
                   (View.note_message (View.note p0))
                   (View.note_class (View.note p0))
                   (View.note_shown (View.note p0))) p0
               else p0))
           (fun _ =>
            View.and_next (View.compute (View.text_content message)) (fun text =>
            View.and_next (fun p0 => View.Done tt
              (View.set_note (View.mkNote (View.note_icon (View.note p0)) text
                 ("snackbar " +:+ type) true) p0)) (fun _ =>
            View.and_next View.setTimeout (fun id =>
            fun p0 => View.Done tt (View.set_snackbarTimeout (Some id) p0))))) q))).
  { intros q Hq. unfold View.and_next, View.compute, View.setTimeout.
    destruct (View.text_content message) as [text | e].
    - right. eexists. split; [reflexivity | ].
      destruct (String.eqb type "success"), (String.eqb type "error");
        simpl; rewrite Hq; reflexivity.
    - left.
      destruct (String.eqb type "success"), (String.eqb type "error");
        simpl; exact Hq. }
  unfold View.Snackbar.showSnackbar.
  unfold View.and_next at 1.
  destruct Hinv as [Hnone | (id & Hid & Hone)].
  - destruct (View.snackbarTimeout p) as [old | ].
    + apply Hcleared. simpl. rewrite Hnone. reflexivity.
    + apply Hcleared. exact Hnone.
  - rewrite Hid. apply Hcleared. simpl. rewrite Hone.
    apply filter_ne_singleton.
Qed.

Lemma fire_one_timer (id : positive) (p : View.Page) :
  one_timer p -> one_timer (View.fire id p).
Proof.
  intros Hinv. unfold View.fire.
  destruct (decide (id ∈ View.pending (View.clock p))) as [Hin | Hout];
    [ | exact Hinv].
  destruct Hinv as [Hnone | (id' & Hid & Hone)].
  - rewrite Hnone in Hin. inversion Hin.
  - rewrite Hone in Hin. apply list_elem_of_singleton in Hin. subst id'.
    left. simpl. rewrite Hone. apply filter_ne_singleton.
Qed.

(** X16. [showSnackbar] keeps at most one timer pending: from a page with
    no pending timer, after any sequence of snackbars shown and timers
    fired, the only timer that can still fire is the one of the latest
    snackbar. A snackbar is therefore never hidden by the timer of an
    earlier one. What [snackbarTimeout] holds at the start does not matter,
    not even an identifier that [setTimeout] issues later: every call clears
    the timer the variable names and then stores the identifier of the
    timer it starts, so the timer started by one call is the one the next
    call clears. *)
Theorem snackbar_keeps_one_timer (p : View.Page) (evs : list SnackbarEvent) :
  View.pending (View.clock p) = [] ->
  one_timer (fold_left snackbar_step evs p).
Proof.
  intros Hnone.
  assert (Hstart : one_timer p) by (left; exact Hnone).
  clear Hnone. revert p Hstart.
  induction evs as [ | ev evs IH]; intros p Hinv; simpl.
  - exact Hinv.
  - apply IH. destruct ev as [message type | id]; simpl.
    + apply showSnackbar_one_timer. exact Hinv.
    + apply fire_one_timer. exact Hinv.
Qed.

(** X17. [showToast] does not cancel the timer of the toast before: after
    two toasts in a row both timers are pending, and when the first one
    fires it hides the second toast, which still shows its message. *)
Theorem toast_hidden_by_earlier_timer
    (first second type1 type2 : string) (p : View.Page) :
  View.pending (View.clock p) = [] ->
  let p1 := View.page_of (View.Toast.showToast (JStr first) type1 p) in
  let p2 := View.page_of (View.Toast.showToast (JStr second) type2 p1) in
  let id1 := View.next_timer (View.clock p) in
  View.pending (View.clock p2) = [id1; Pos.succ id1]
  /\ View.note_shown (View.note p2) = true
  /\ View.note_message (View.note p2) = second
  /\ View.note_shown (View.note (View.fire id1 p2)) = false
  /\ View.note_message (View.note (View.fire id1 p2)) = second
  /\ View.pending (View.clock (View.fire id1 p2)) = [Pos.succ id1].
Proof.
  intros Hnone p1 p2 id1. subst p1 p2 id1. unfold_view. simpl.
  rewrite Hnone. simpl. split; [reflexivity | ]. split; [reflexivity | ].
  split; [reflexivity | ].
  unfold View.fire. simpl.
  destruct (decide (View.next_timer (View.clock p)
                    ∈ [View.next_timer (View.clock p);
                       Pos.succ (View.next_timer (View.clock p))])) as [_ | Hout].
  - simpl. repeat split.
    rewrite filter_cons.
    destruct (decide (View.next_timer (View.clock p)
                      <> View.next_timer (View.clock p))) as [Hne | _];
      [congruence | ].
    rewrite filter_cons.
    destruct (decide (Pos.succ (View.next_timer (View.clock p))
                      <> View.next_timer (View.clock p))) as [_ | Heq];
      [reflexivity | ].
    exfalso. apply Heq. intros Hsame. symmetry in Hsame.
    exact (Pos.succ_discr _ Hsame).
  - exfalso. apply Hout. apply list_elem_of_here.
Qed.

(** ** The operator at the controller *)

Lemma showSnackbar_of_text (text type : string) (p : View.Page) :
  exists p',
    View.Snackbar.showSnackbar (JStr text) type p = View.Done tt p'
    /\ View.note_message (View.note p') = text
    /\ View.note_class (View.note p') = "snackbar " +:+ type
    /\ View.note_shown (View.note p') = true
    /\ View.note_icon (View.note p')
       = (if String.eqb type "success" then "check_circle"
          else if String.eqb type "error" then "error"
          else View.note_icon (View.note p)).
Proof.
  unfold_view. simpl.
  destruct (View.snackbarTimeout p) as [old | ];
    destruct (String.eqb type "success"), (String.eqb type "error");
    simpl; eexists; repeat split; reflexivity.
Qed.

Lemma showToast_of_text (text type : string) (p : View.Page) :
  exists p',
    View.Toast.showToast (JStr text) type p = View.Done tt p'
    /\ View.note_message (View.note p') = text
    /\ View.note_class (View.note p') = "toast " +:+ type
    /\ View.note_shown (View.note p') = true
    /\ View.modal_shown p' = View.modal_shown p
    /\ View.boxes p' = View.boxes p.
Proof.
  unfold_view. simpl. eexists. repeat split; reflexivity.
Qed.

Lemma announcement_done_delivered (p : View.Page) :
  View.Snackbar.announcement_done delivered p
  = View.Snackbar.showSnackbar (JStr "Announcement sent successfully!") "success" p.
Proof. reflexivity. Qed.

Lemma announcement_done_failed (e : JsError) (p : View.Page) :
  View.Snackbar.announcement_done (failed e) p
  = View.Snackbar.showSnackbar
      (JStr ("Failed to send announcement: " +:+ err_message e)) "error" p.
Proof. reflexivity. Qed.

Lemma click_announcement_run (audioFile : string) (d : Desktop.Desktop)
    (result : JsValue) (w' : World) :
  play_announcement (JStr audioFile) (Desktop.main d) = Return result w' ->
  Desktop.click_announcement audioFile d
  = Desktop.mkDesktop w'
      (View.page_of (View.Snackbar.announcement_done result (Desktop.page d))).
Proof.
  intros Hrun. unfold Desktop.click_announcement. rewrite Hrun. reflexivity.
Qed.

(** X18. What the operator sees after a click on an announcement button.
    The snackbar shows. It is the success snackbar, with the check mark and
    the text of the success, only when a request went out and the daemon
    answered it with success; in every other case it is the error snackbar
    with the message of the error after "Failed to send announcement: ". *)
Theorem click_announcement_feedback (audioFile : string) (d : Desktop.Desktop) :
  let d' := Desktop.click_announcement audioFile d in
  let shown := View.note (Desktop.page d') in
  View.note_shown shown = true
  /\ ((View.note_class shown = "snackbar success"
       /\ View.note_icon shown = "check_circle"
       /\ View.note_message shown = "Announcement sent successfully!"
       /\ exists c r,
            sent (Desktop.main d') = c :: sent (Desktop.main d)
            /\ network (Desktop.main d) c = Resolves r)
      \/ (View.note_class shown = "snackbar error"
          /\ View.note_icon shown = "error"
          /\ exists e,
               View.note_message shown
               = "Failed to send announcement: " +:+ err_message e
               /\ (sent (Desktop.main d') = sent (Desktop.main d)
                   \/ exists c,
                        sent (Desktop.main d') = c :: sent (Desktop.main d)
                        /\ network (Desktop.main d) c = Rejects e))).
Proof.
  intros d' shown. subst d' shown.
  destruct (play_url (settings (Desktop.main d))) as [url | e] eqn:Hurl.
  - pose proof (play_announcement_dispatched (JStr audioFile) (Desktop.main d)
                  url Hurl) as Hplay.
    destruct (network (Desktop.main d) _) as [r | e] eqn:Hnet.
    + rewrite (click_announcement_run _ _ _ _ Hplay).
      cbn [Desktop.page Desktop.main]. rewrite announcement_done_delivered.
      destruct (showSnackbar_of_text "Announcement sent successfully!" "success"
                  (Desktop.page d)) as (p' & -> & Hm & Hc & Hs & Hi).
      cbn [View.page_of]. split; [exact Hs | ].
      left. repeat (split; [assumption | ]). eauto.
    + rewrite (click_announcement_run _ _ _ _ Hplay).
      cbn [Desktop.page Desktop.main]. rewrite announcement_done_failed.
      destruct (showSnackbar_of_text
                  ("Failed to send announcement: " +:+ err_message e) "error"
                  (Desktop.page d)) as (p' & -> & Hm & Hc & Hs & Hi).
      cbn [View.page_of]. split; [exact Hs | ].
      right. repeat (split; [assumption | ]). exists e. split; [exact Hm | ].
      right. eauto.
  - pose proof (play_announcement_not_dispatched (JStr audioFile) (Desktop.main d)
                  e Hurl) as Hplay.
    rewrite (click_announcement_run _ _ _ _ Hplay).
    cbn [Desktop.page Desktop.main]. rewrite announcement_done_failed.
    destruct (showSnackbar_of_text
                ("Failed to send announcement: " +:+ err_message e) "error"
                (Desktop.page d)) as (p' & -> & Hm & Hc & Hs & Hi).
    cbn [View.page_of]. split; [exact Hs | ].
    right. repeat (split; [assumption | ]). exists e. split; [exact Hm | ].
    left. reflexivity.
Qed.

Section Dialog.

Variable settingsPath : string.
Variable JSON_stringify : JsValue -> string.

(** X19. A click on the save button always ends with the dialog closed and
    the toast "Settings saved successfully!": the answer of the main
    process is not looked at, and it would report success anyway. This is
    so even when the settings file could not be written and the disk holds
    what it held before. *)
Theorem click_save_feedback (d : Desktop.Desktop) :
  let d' := Desktop.click_save settingsPath JSON_stringify d in
  View.modal_shown (Desktop.page d') = false
  /\ View.note_message (View.note (Desktop.page d')) = "Settings saved successfully!"
  /\ View.note_class (View.note (Desktop.page d')) = "toast success"
  /\ View.note_shown (View.note (Desktop.page d')) = true
  /\ (settingsPath ∈ denied (Desktop.main d) ->
      files (Desktop.main d') = files (Desktop.main d)).
Proof.
  intros d'. subst d'. unfold Desktop.click_save.
  rewrite save_settings_unfold.
  destruct (decide (settingsPath ∈ denied (Desktop.main d))) as [Hdenied | Hfree].
  - rewrite saveSettings_refused by exact Hdenied. simpl. repeat split.
  - rewrite saveSettings_written by exact Hfree. simpl. repeat split.
    intros Hdenied. contradiction.
Qed.

(** X20. What was typed comes back: after a click on the save button,
    opening the dialog again fills the boxes with the texts that were
    saved, except that an empty port box comes back as 8080. This holds
    whether or not the write to the disk succeeded. *)
Theorem dialog_round_trip (d : Desktop.Desktop) :
  let typed := View.boxes (Desktop.page d) in
  let d' := Desktop.click_settings
              (Desktop.click_save settingsPath JSON_stringify d) in
  View.boxes (Desktop.page d')
  = View.mkBoxes (View.pi_address typed)
      (if String.eqb (View.pi_port typed) "" then "8080" else View.pi_port typed)
      (View.api_token typed)
  /\ View.modal_shown (Desktop.page d') = true.
Proof.
  intros typed d'. subst typed d'.
  unfold Desktop.click_settings, get_settings.
  assert (Hmain : settings (Desktop.main
                    (Desktop.click_save settingsPath JSON_stringify d))
                  = spread (settings (Desktop.main d))
                      (View.Toast.save_click (Desktop.page d))).
  { unfold Desktop.click_save.
    pose proof (save_settings_settings settingsPath JSON_stringify
                  (View.Toast.save_click (Desktop.page d)) (Desktop.main d)) as Hs.
    destruct (save_settings settingsPath JSON_stringify
                (View.Toast.save_click (Desktop.page d)) (Desktop.main d));
      exact Hs. }
  rewrite Hmain. unfold spread, View.Toast.save_click, Renderer.newSettings.
  unfold View.Toast.loadSettings, View.and_next, View.compute.
  rewrite (box_text_of_string _ "piAddress" ""
             (View.pi_address (View.boxes (Desktop.page d))))
    by (apply lookup_union_Some_l; reflexivity).
  rewrite (box_text_of_string _ "piPort" "8080"
             (View.pi_port (View.boxes (Desktop.page d))))
    by (apply lookup_union_Some_l; reflexivity).
  rewrite (box_text_of_string _ "apiToken" ""
             (View.api_token (View.boxes (Desktop.page d))))
    by (apply lookup_union_Some_l; reflexivity).
  simpl. split.
  - f_equal.
    + destruct (String.eqb (View.pi_address (View.boxes (Desktop.page d))) "")
        eqn:Hempty; [ | reflexivity].
      apply String.eqb_eq in Hempty. rewrite Hempty. reflexivity.
    + destruct (String.eqb (View.api_token (View.boxes (Desktop.page d))) "")
        eqn:Hempty; [ | reflexivity].
      apply String.eqb_eq in Hempty. rewrite Hempty. reflexivity.
  - unfold Desktop.click_save.
    destruct (save_settings settingsPath JSON_stringify
                (View.Toast.save_click (Desktop.page d)) (Desktop.main d));
      reflexivity.
Qed.

End Dialog.

(** ** The window of the application *)

Section Window.

Variable settingsPath : string.
Variable JSON_parse : string -> Result JsValue.
Variable platform : string.

Lemma loadSettings_returns (w : World) :
  exists w', loadSettings settingsPath JSON_parse w = Return tt w'.
Proof.
  destruct (files w !! settingsPath) as [text | ] eqn:Htext.
  - destruct (decide (settingsPath ∈ denied w)) as [Hdenied | Hfree].
    + eexists. apply loadSettings_unreadable; eauto.
    + destruct (JSON_parse text) as [v | e] eqn:Hparse.
      * eexists. eapply loadSettings_stores_parsed; eassumption.
      * eexists. eapply loadSettings_unparsable; eassumption.
  - eexists. apply loadSettings_no_file. assumption.
Qed.

Lemma createWindow_opens (a : Lifecycle.App) :
  exists w',
    Lifecycle.createWindow settingsPath JSON_parse a
    = Lifecycle.mkApp w' Lifecycle.Window (S (Lifecycle.windows a))
        (Lifecycle.running a)
    /\ loadSettings settingsPath JSON_parse (Lifecycle.world a) = Return tt w'.
Proof.
  destruct (loadSettings_returns (Lifecycle.world a)) as (w' & Hload).
  exists w'. split; [ | exact Hload].
  unfold Lifecycle.createWindow, createWindow. rewrite Hload. reflexivity.
Qed.

Lemma handle_window_tracked (a : Lifecycle.App) (ev : Lifecycle.Event) :
  ev <> Lifecycle.Ready ->
  window_tracked a ->
  window_tracked (Lifecycle.handle settingsPath JSON_parse platform a ev).
Proof.
  intros Hev Hinv. unfold Lifecycle.handle.
  destruct (Lifecycle.running a); [ | exact Hinv].
  destruct ev; [congruence | | ].
  - unfold Lifecycle.on_activate.
    destruct Hinv as [[Hw Hn] | [Hw Hn]]; rewrite Hw.
    + left. split; assumption.
    + destruct (createWindow_opens a) as (w' & -> & _).
      left. simpl. rewrite Hn. split; reflexivity.
  - destruct Hinv as [[Hw Hn] | [Hw Hn]]; rewrite Hn.
    + simpl. rewrite Hn. simpl. unfold Lifecycle.on_window_all_closed.
      destruct (String.eqb platform "darwin"); right; simpl; rewrite ?Hn;
        split; reflexivity.
    + right. split; assumption.
Qed.

(** X21. The application never has two windows: after [ready], whatever
    sequence of activations and closings follows, at most one window is
    open, and one is open exactly when [mainWindow] holds it. *)
Theorem at_most_one_window (w : World) (evs : list Lifecycle.Event) :
  Lifecycle.Ready ∉ evs ->
  let a := Lifecycle.run settingsPath JSON_parse platform (Lifecycle.launch w)
             (Lifecycle.Ready :: evs) in
  (Lifecycle.windows a <= 1)%nat
  /\ (Lifecycle.windows a = 1%nat <-> Lifecycle.mainWindow a = Lifecycle.Window).
Proof.
  intros Hready a.
  assert (Hinv : window_tracked a).
  { subst a. unfold Lifecycle.run. cbn [fold_left].
    change (Lifecycle.handle settingsPath JSON_parse platform
              (Lifecycle.launch w) Lifecycle.Ready)
      with (Lifecycle.createWindow settingsPath JSON_parse (Lifecycle.launch w)).
    destruct (createWindow_opens (Lifecycle.launch w)) as (w' & -> & _).
    assert (Hstart : window_tracked
              (Lifecycle.mkApp w' Lifecycle.Window
                 (S (Lifecycle.windows (Lifecycle.launch w)))
                 (Lifecycle.running (Lifecycle.launch w)))).
    { left. split; reflexivity. }
    revert Hstart. generalize (Lifecycle.mkApp w' Lifecycle.Window
                                 (S (Lifecycle.windows (Lifecycle.launch w)))
                                 (Lifecycle.running (Lifecycle.launch w))).
    induction evs as [ | ev evs IH]; intros a0 Hstart; simpl.
    - exact Hstart.
    - apply IH.
      + intros Hin. apply Hready. apply list_elem_of_further. exact Hin.
      + apply handle_window_tracked; [ | exact Hstart].
        intros ->. apply Hready. apply list_elem_of_here. }
  destruct Hinv as [[Hw Hn] | [Hw Hn]]; rewrite Hw, Hn; split;
    try lia; split; intros H; congruence.
Qed.

(** An application that has quit handles no event. *)
Lemma run_after_quit (a : Lifecycle.App) (evs : list Lifecycle.Event) :
  Lifecycle.running a = false ->
  Lifecycle.run settingsPath JSON_parse platform a evs = a.
Proof.
  intros Hquit. unfold Lifecycle.run.
  induction evs as [ | ev evs IH]; simpl; [reflexivity | ].
  unfold Lifecycle.handle at 2. rewrite Hquit. exact IH.
Qed.

(** X22. Closing the window ends the application everywhere but on macOS:
    after [ready] and the closing of the window no window is left and
    [mainWindow] is [null]; the application has quit, and handles nothing
    more, unless the platform is darwin, where it keeps running and the next
    activation loads the settings again and opens the window. *)
Theorem closing_the_window (w : World) :
  let a := Lifecycle.run settingsPath JSON_parse platform (Lifecycle.launch w)
             [Lifecycle.Ready; Lifecycle.Closed] in
  Lifecycle.windows a = 0%nat
  /\ Lifecycle.mainWindow a = Lifecycle.Null
  /\ Lifecycle.running a = String.eqb platform "darwin"
  /\ (Lifecycle.running a = false ->
      forall evs, Lifecycle.run settingsPath JSON_parse platform a evs = a)
  /\ (Lifecycle.running a = true ->
      exists w',
        loadSettings settingsPath JSON_parse (Lifecycle.world a) = Return tt w'
        /\ Lifecycle.handle settingsPath JSON_parse platform a Lifecycle.Activate
           = Lifecycle.mkApp w' Lifecycle.Window 1 true).
Proof.
  intros a.
  assert (Ha : exists w1,
             a = Lifecycle.mkApp w1 Lifecycle.Null 0 (String.eqb platform "darwin")).
  { subst a. unfold Lifecycle.run. cbn [fold_left].
    change (Lifecycle.handle settingsPath JSON_parse platform
              (Lifecycle.launch w) Lifecycle.Ready)
      with (Lifecycle.createWindow settingsPath JSON_parse (Lifecycle.launch w)).
    destruct (createWindow_opens (Lifecycle.launch w)) as (w1 & -> & _).
    exists w1. unfold Lifecycle.handle, Lifecycle.on_window_all_closed. simpl.
    destruct (String.eqb platform "darwin"); reflexivity. }
  destruct Ha as (w1 & Ha). rewrite Ha. simpl.
  split; [reflexivity | ]. split; [reflexivity | ]. split; [reflexivity | ].
  split.
  - intros Hquit evs. apply run_after_quit. exact Hquit.
  - intros Hrun. rewrite Hrun. unfold Lifecycle.handle. simpl.
    unfold Lifecycle.on_activate. simpl.
    destruct (createWindow_opens
                (Lifecycle.mkApp w1 Lifecycle.Null 0 true)) as (w' & -> & Hload).
    exists w'. split; [exact Hload | reflexivity].
Qed.

End Window.

(** X15. With a profile that is [null] in the main process, the dialog
    opens but is not filled: reading the address throws, and the boxes keep
    the texts they had. *)
Theorem dialog_not_filled_on_null_profile (d : Desktop.Desktop) :
  settings (Desktop.main d) = JNull ->
  View.modal_shown (Desktop.page (Desktop.click_settings d)) = true
  /\ View.boxes (Desktop.page (Desktop.click_settings d))
     = View.boxes (Desktop.page d)
  /\ View.Toast.loadSettings JNull (View.open_settings (Desktop.page d))
     = View.Fails
         (TypeError "Cannot read properties of null (reading 'piAddress')")
         (View.set_currentSettings JNull (View.open_settings (Desktop.page d))).
Proof.
  intros Hnull. unfold Desktop.click_settings, get_settings. rewrite Hnull.
  repeat split.
Qed.

(** ** The extras on concrete worlds *)

Lemma saved_profile_survives_restart_witness :
  let w := boot ∅ ∅ offline in
  let newSettings := Renderer.newSettings "192.168.1.50" "9090" "T1" in
  (settings_json ∉ denied w)
  /\ parse_flat (print_json (spread (settings w) newSettings))
     = Ok (spread (settings w) newSettings)
  /\ exists w2,
       (createWindow settings_json parse_flat;; get_settings)
         (boot (files (world_of (save_settings settings_json print_json newSettings w)))
               (denied w) playing)
       = Return (spread (settings w) newSettings) w2.
Proof.
  assert (Hfree : settings_json ∉ denied (boot ∅ ∅ offline)).
  { apply not_elem_of_empty. }
  assert (Hparse :
    parse_flat (print_json (spread (settings (boot ∅ ∅ offline))
                              (Renderer.newSettings "192.168.1.50" "9090" "T1")))
    = Ok (spread (settings (boot ∅ ∅ offline))
            (Renderer.newSettings "192.168.1.50" "9090" "T1"))).
  { vm_compute. reflexivity. }
  split; [exact Hfree | ]. split; [exact Hparse | ].
  exact (saved_profile_survives_restart settings_json parse_flat print_json
           (Renderer.newSettings "192.168.1.50" "9090" "T1")
           (boot ∅ ∅ offline) playing Hfree Hparse).
Defined.

Lemma failed_save_changes_memory_only_witness :
  let w := boot ∅ {[settings_json]} offline in
  let newSettings := Renderer.newSettings "192.168.1.50" "9090" "T1" in
  settings_json ∈ denied w
  /\ exists w',
       (save_settings settings_json print_json newSettings;; get_settings) w
       = Return (spread (settings w) newSettings) w'
       /\ files w' = files w.
Proof.
  assert (Hdenied : settings_json ∈ denied (boot ∅ {[settings_json]} offline)).
  { change (settings_json ∈ ({[settings_json]} : gset string)).
    apply elem_of_singleton_2. reflexivity. }
  split; [exact Hdenied | ].
  exact (failed_save_changes_memory_only settings_json print_json
           (Renderer.newSettings "192.168.1.50" "9090" "T1")
           (boot ∅ {[settings_json]} offline) Hdenied).
Defined.

Lemma save_then_get_settings_witness :
  let w := boot ∅ ∅ offline in
  let newSettings := Renderer.newSettings "192.168.1.50" "9090" "T1" in
  own_props newSettings !! "apiToken" = Some (JStr "T1")
  /\ exists profile w',
       (save_settings settings_json print_json newSettings;; get_settings) w
       = Return profile w'
       /\ own_props profile !! "apiToken" = Some (JStr "T1").
Proof.
  split; [reflexivity | ].
  exact (save_then_get_settings settings_json print_json
           (Renderer.newSettings "192.168.1.50" "9090" "T1")
           (boot ∅ ∅ offline) "apiToken" (JStr "T1") eq_refl).
Defined.

Lemma play_announcement_without_address_witness :
  let props : gmap string JsValue := <["piPort" := JNum 8080]> ∅ in
  let w := set_settings (JObj props) (boot ∅ ∅ playing) in
  settings w = JObj props
  /\ props !! "piAddress" = None
  /\ props !! "piPort" = Some (JNum 8080)
  /\ to_string (JNum 8080) = Ok "8080"
  /\ sent (world_of (play_announcement (JStr "bell.mp3") w))
     = mkCall POST "http://undefined:8080/play"
         (JObj (<["audio" := JStr "bell.mp3"]> ∅))
         (<["timeout" := JNum 5000]> ∅) :: sent w.
Proof.
  repeat (split; [reflexivity | ]).
  exact (play_announcement_without_address (JStr "bell.mp3")
           (set_settings (JObj (<["piPort" := JNum 8080]> ∅)) (boot ∅ ∅ playing))
           (<["piPort" := JNum 8080]> ∅) (JNum 8080) "8080"
           eq_refl eq_refl eq_refl eq_refl).
Defined.

Lemma null_profile_blocks_dispatch_witness :
  let w := boot (<[settings_json := "null"]> ∅) ∅ playing in
  files w !! settings_json = Some "null"
  /\ (settings_json ∉ denied w)
  /\ parse_flat "null" = Ok JNull
  /\ exists w1 w2,
       loadSettings settings_json parse_flat w = Return tt w1
       /\ play_announcement (JStr "bell.mp3") w1
          = Return (failed (TypeError
                      "Cannot read properties of null (reading 'piAddress')")) w2
       /\ sent w2 = sent w.
Proof.
  assert (Hfree : settings_json
                  ∉ denied (boot (<[settings_json := "null"]> ∅) ∅ playing)).
  { apply not_elem_of_empty. }
  split; [reflexivity | ]. split; [exact Hfree | ]. split; [reflexivity | ].
  exact (null_profile_blocks_dispatch settings_json parse_flat "null"
           (JStr "bell.mp3") (boot (<[settings_json := "null"]> ∅) ∅ playing)
           eq_refl Hfree eq_refl).
Defined.

Lemma dialog_shows_profile_with_fallbacks_witness :
  own_props initial_settings !! "piAddress" = Some (JStr "192.168.1.100")
  /\ own_props initial_settings !! "piPort" = Some (JNum 8080)
  /\ own_props initial_settings !! "apiToken" = None
  /\ - 9007199254740991 <= 8080 <= 9007199254740991
  /\ exists p',
       View.Toast.loadSettings (JObj (own_props initial_settings)) Scene.blank_page
       = View.Done tt p'
       /\ View.boxes p' = View.mkBoxes "192.168.1.100" "8080" ""
       /\ View.currentSettings p' = JObj (own_props initial_settings).
Proof.
  assert (Hsafe : - 9007199254740991 <= 8080 <= 9007199254740991) by lia.
  repeat (split; [reflexivity | ]). split; [exact Hsafe | ].
  exact (dialog_shows_profile_with_fallbacks (own_props initial_settings)
           "192.168.1.100" 8080 Scene.blank_page eq_refl eq_refl eq_refl Hsafe).
Defined.

Lemma dialog_not_filled_on_null_profile_witness :
  let d := Desktop.mkDesktop (set_settings JNull (boot ∅ ∅ playing))
             (Scene.filled_page "10.0.0.5" "9090" "T1") in
  settings (Desktop.main d) = JNull
  /\ View.modal_shown (Desktop.page (Desktop.click_settings d)) = true
  /\ View.boxes (Desktop.page (Desktop.click_settings d))
     = View.mkBoxes "10.0.0.5" "9090" "T1".
Proof.
  split; [reflexivity | ].
  destruct (dialog_not_filled_on_null_profile
              (Desktop.mkDesktop (set_settings JNull (boot ∅ ∅ playing))
                 (Scene.filled_page "10.0.0.5" "9090" "T1")) eq_refl)
    as (Hshown & Hboxes & _).
  split; [exact Hshown | exact Hboxes].
Defined.

Lemma snackbar_keeps_one_timer_witness :
  View.pending (View.clock Scene.blank_page) = []
  /\ one_timer
       (fold_left snackbar_step
          [Shows (JStr "Announcement sent successfully!") "success";
           Shows (JStr "Failed to send announcement: timeout of 5000ms exceeded")
                 "error";
           Fires 1%positive; Fires 2%positive]
          Scene.blank_page).
Proof.
  split; [reflexivity | ].
  exact (snackbar_keeps_one_timer Scene.blank_page _ eq_refl).
Defined.

(** The same on a page whose [snackbarTimeout] holds, from the start, the
    identifier 2 that the second [setTimeout] will issue: the first snackbar
    starts timer 1 and stores 1, the second clears timer 1 and starts timer
    2, which is then the only one pending. *)
Example snackbar_with_stale_identifier :
  let start := View.set_snackbarTimeout (Some 2%positive) Scene.blank_page in
  let one := snackbar_step start (Shows (JStr "first") "success") in
  let two := snackbar_step one (Shows (JStr "second") "error") in
  View.pending (View.clock start) = []
  /\ View.next_timer (View.clock start) = 1%positive
  /\ View.pending (View.clock one) = [1%positive]
  /\ View.snackbarTimeout one = Some 1%positive
  /\ View.pending (View.clock two) = [2%positive]
  /\ View.snackbarTimeout two = Some 2%positive.
Proof. repeat split. Qed.

Lemma toast_hidden_by_earlier_timer_witness :
  let p2 := View.page_of (View.Toast.showToast (JStr "second") "error"
              (View.page_of (View.Toast.showToast (JStr "first") "success"
                 Scene.blank_page))) in
  View.pending (View.clock Scene.blank_page) = []
  /\ View.pending (View.clock p2) = [1%positive; 2%positive]
  /\ View.note_shown (View.note p2) = true
  /\ View.note_message (View.note p2) = "second"
  /\ View.note_shown (View.note (View.fire 1%positive p2)) = false
  /\ View.note_message (View.note (View.fire 1%positive p2)) = "second"
  /\ View.pending (View.clock (View.fire 1%positive p2)) = [2%positive].
Proof.
  split; [reflexivity | ].
  exact (toast_hidden_by_earlier_timer "first" "second" "success" "error"
           Scene.blank_page eq_refl).
Defined.

Lemma at_most_one_window_witness :
  let evs := [Lifecycle.Closed; Lifecycle.Activate; Lifecycle.Activate;
              Lifecycle.Closed; Lifecycle.Activate] in
  let a := Lifecycle.run settings_json parse_flat "darwin"
             (Lifecycle.launch (boot ∅ ∅ playing)) (Lifecycle.Ready :: evs) in
  (Lifecycle.Ready ∉ evs)
  /\ (Lifecycle.windows a <= 1)%nat
  /\ (Lifecycle.windows a = 1%nat <-> Lifecycle.mainWindow a = Lifecycle.Window).
Proof.
  assert (Hready : Lifecycle.Ready
                   ∉ [Lifecycle.Closed; Lifecycle.Activate; Lifecycle.Activate;
                      Lifecycle.Closed; Lifecycle.Activate]).
  { intros Hin. repeat (apply elem_of_cons in Hin as [Hin | Hin]; [discriminate Hin | ]).
    inversion Hin. }
  split; [exact Hready | ].
  exact (at_most_one_window settings_json parse_flat "darwin" (boot ∅ ∅ playing)
           _ Hready).
Defined.
